(** * twilio-gemini-bot: the webhook endpoint, the command dispatcher and
      the two generation backends, embedded from the Python sources.

    - [src/app.py]                 : [bot]
    - [src/handlers/commands.py]   : [CommandHandler] and its handlers
    - [src/interfaces/model.py]    : [ModelInterface]
    - [src/models/gemini.py]       : [GeminiModel]
    - [src/models/openai.py]       : [OpenaiModel]

    Python [str] values are sequences of Unicode code points; the network,
    the process environment and the two client libraries are an explicit
    [World] the code reads; what the code does to the outside (lines
    printed, outbound calls) is collected in a log of events. *)

From Stdlib Require Import ZArith NArith Ascii String DecimalString.
From stdpp Require Import base option list gmap fin_maps.

Set Default Proof Using "Type".
Set Warnings "-register-all".

(** ** Python strings *)

Module PyStr.

(** A [str] is a list of code points. *)
Abbreviation pystr := (list N) (only parsing).

(** Literals of the source are written as Rocq string literals. *)
Definition str (s : string) : pystr :=
  (λ a, N_of_ascii a) <$> list_ascii_of_string s.

(** [c.isspace()] for one code point: the characters CPython's
    [_PyUnicode_IsWhitespace] accepts. *)
Definition isspace (c : N) : bool :=
  ((9 <=? c) && (c <=? 13) || (28 <=? c) && (c <=? 32)
   || (c =? 133) || (c =? 160) || (c =? 5760)
   || (8192 <=? c) && (c <=? 8202)
   || (c =? 8232) || (c =? 8233) || (c =? 8239) || (c =? 8287)
   || (c =? 12288))%N.

(** [s.split()]: the maximal runs of non-whitespace code points, in
    order.  [cur] is the run being scanned, most recent first. *)
Fixpoint split_from (cur : pystr) (s : pystr) : list pystr :=
  match s with
  | [] => match cur with [] => [] | _ :: _ => [reverse cur] end
  | c :: s' =>
      if isspace c
      then match cur with
           | [] => split_from [] s'
           | _ :: _ => reverse cur :: split_from [] s'
           end
      else split_from (c :: cur) s'
  end.

Definition split (s : pystr) : list pystr := split_from [] s.

(** [sep.join(parts)]. *)
Fixpoint join (sep : pystr) (parts : list pystr) : pystr :=
  match parts with
  | [] => []
  | [p] => p
  | p :: ps => p ++ sep ++ join sep ps
  end.

(** [s.lstrip()], [s.rstrip()], [s.strip()]. *)
Fixpoint lstrip (s : pystr) : pystr :=
  match s with
  | [] => []
  | c :: s' => if isspace c then lstrip s' else s
  end.

Definition rstrip (s : pystr) : pystr := reverse (lstrip (reverse s)).

Definition strip (s : pystr) : pystr := rstrip (lstrip s).

(** [str(n)] for an [int]. *)
Definition str_of_int (n : Z) : pystr :=
  str (NilZero.string_of_int (Z.to_int n)).

(** [f"{x}"] for a value that is a [str] or [None]. *)
Definition format_opt (x : option pystr) : pystr :=
  match x with
  | Some s => s
  | None => str "None"
  end.

(** [str.lower] restricted to what it does on ASCII letters; code points
    outside [A-Z] are left as they are.  The development is parametric
    in the lower-casing function; this one instantiates it on ASCII
    text. *)
Definition ascii_lower_char (c : N) : N :=
  if ((65 <=? c) && (c <=? 90))%N then (c + 32)%N else c.

Definition ascii_lower (s : pystr) : pystr := ascii_lower_char <$> s.

End PyStr.
Export PyStr.

(** ** The Python runtime the code relies on *)

Module Runtime.

(** The exceptions the sources can meet, all instances of Python's
    [Exception] (what [except Exception] catches).  [LibraryError] is any
    other exception raised inside [requests] or [google.generativeai]
    (connection errors, timeouts, authentication failures). *)
Inductive exn :=
| IndexError
| KeyError
| TypeError
| AttributeError
| ValueError
| NotImplementedError
| HTTPError
| LibraryError (name : pystr).

(** [isinstance(e, requests.exceptions.HTTPError)]. *)
Definition is_HTTPError (e : exn) : bool :=
  match e with HTTPError => true | _ => false end.

(** What a handler gives back: a [str] or [None]. *)
Inductive pyval :=
| VStr (s : pystr)
| VNone.

(** The value [response.json()] decodes a body to. *)
Inductive json :=
| JNone
| JBool (b : bool)
| JNum (literal : pystr)
| JStr (s : pystr)
| JList (items : list json)
| JDict (fields : gmap (list N) json).

(** The keyword arguments of the one [requests.post] call. *)
Record Request := mkRequest {
  url : pystr;
  prompt : pystr;
  max_tokens : Z;
  authorization : pystr
}.

(** A [requests.Response]: its status code and its body as JSON, [None]
    when the body is not JSON. *)
Record Response := mkResponse {
  status_code : Z;
  body : option json
}.

(** The object [genai.GenerativeModel(name)] builds, a local client that
    remembers the name it was given. *)
Record GenerativeModel := mkGenerativeModel {
  model_name : option pystr
}.

(** What [generate_content] gives back: reading its [.text] yields the
    text or raises. *)
Record GenerateContentResponse := mkGenerateContentResponse {
  response_text : exn + pystr
}.

(** What the process reads from outside: the environment, and what each
    library call answers.  [genai_GenerativeModel] is the constructor of
    the client, which raises or not on the name it is given. *)
Record World := mkWorld {
  os_getenv : pystr → option pystr;
  genai_configure : option pystr → option exn;
  genai_GenerativeModel : option pystr → option exn;
  genai_generate_content : option pystr → pystr → exn + GenerateContentResponse;
  requests_post : Request → exn + Response
}.

(** What the process does to the outside. [EvPrint prefix e] is the line
    [print(f"<prefix>{e}")]. *)
Inductive event :=
| EvPrint (prefix : pystr) (e : exn)
| EvConfigure (api_key : option pystr)
| EvGenerate (model : option pystr) (prompt : pystr)
| EvPost (req : Request).

(** An outbound network call. *)
Definition is_outbound (ev : event) : bool :=
  match ev with
  | EvGenerate _ _ | EvPost _ => true
  | EvPrint _ _ | EvConfigure _ => false
  end.

Inductive outcome (A : Type) :=
| Return (a : A)
| Raise (e : exn).
Arguments Return {A} a.
Arguments Raise {A} e.

(** A computation reads the world, logs events and returns or raises. *)
Definition M (A : Type) : Type := World → list event * outcome A.

Definition M_ret {A} (a : A) : M A := λ _, ([], Return a).

Definition M_bind {A B} (f : A → M B) (m : M A) : M B := λ w,
  match m w with
  | (l1, Return a) => let '(l2, r) := f a w in (l1 ++ l2, r)
  | (l1, Raise e) => (l1, Raise e)
  end.

#[export] Instance M_mret : MRet M := @M_ret.
#[export] Instance M_mbind : MBind M := @M_bind.

Definition raise {A} (e : exn) : M A := λ _, ([], Raise e).

Definition emit (ev : event) : M unit := λ _, ([ev], Return tt).

Definition print (prefix : pystr) (e : exn) : M unit :=
  emit (EvPrint prefix e).

(** [try: body / except Exception as e: handler(e)]. *)
Definition try_except {A} (body : M A) (handler : exn → M A) : M A := λ w,
  match body w with
  | (l1, Return a) => (l1, Return a)
  | (l1, Raise e) => let '(l2, r) := handler e w in (l1 ++ l2, r)
  end.

(** [os.getenv(name)]. *)
Definition getenv (name : pystr) : M (option pystr) := λ w,
  ([], Return (os_getenv w name)).

(** [genai.configure(api_key=...)]. *)
Definition configure (api_key : option pystr) : M unit := λ w,
  ([EvConfigure api_key],
   match genai_configure w api_key with
   | Some e => Raise e
   | None => Return tt
   end).

(** [genai.GenerativeModel(name)]: builds the client or raises; nothing
    goes out. *)
Definition new_GenerativeModel (name : option pystr) : M GenerativeModel := λ w,
  ([],
   match genai_GenerativeModel w name with
   | Some e => Raise e
   | None => Return {| model_name := name |}
   end).

(** [model.generate_content(prompt)]: the generative call. *)
Definition generate_content (model : GenerativeModel) (prompt : pystr)
  : M GenerateContentResponse := λ w,
  ([EvGenerate (model_name model) prompt],
   match genai_generate_content w (model_name model) prompt with
   | inl e => Raise e
   | inr response => Return response
   end).

(** [response.text]. *)
Definition get_text (response : GenerateContentResponse) : M pystr := λ _,
  ([],
   match response_text response with
   | inl e => Raise e
   | inr text => Return text
   end).

(** [requests.post(url, json=..., headers=...)]. *)
Definition post (req : Request) : M Response := λ w,
  ([EvPost req],
   match requests_post w req with
   | inl e => Raise e
   | inr r => Return r
   end).

(** [response.raise_for_status()]. *)
Definition raise_for_status (r : Response) : M unit :=
  if ((400 <=? status_code r) && (status_code r <? 600))%Z
  then raise HTTPError
  else mret tt.

(** [response.json()]. *)
Definition response_json (r : Response) : M json :=
  match body r with
  | Some j => mret j
  | None => raise ValueError
  end.

(** [v[key]] for a [str] key. *)
Definition getitem_str (v : json) (key : pystr) : M json :=
  match v with
  | JDict fields =>
      match fields !! key with
      | Some x => mret x
      | None => raise KeyError
      end
  | _ => raise TypeError
  end.

(** [v[0]]. *)
Definition getitem_0 (v : json) : M json :=
  match v with
  | JList items =>
      match items with
      | x :: _ => mret x
      | [] => raise IndexError
      end
  | JStr s =>
      match s with
      | c :: _ => mret (JStr [c])
      | [] => raise IndexError
      end
  | JDict _ => raise KeyError
  | _ => raise TypeError
  end.

(** [v.strip()]. *)
Definition strip_method (v : json) : M pystr :=
  match v with
  | JStr s => mret (strip s)
  | _ => raise AttributeError
  end.

(** [l[0]] for a list of strings. *)
Definition list_getitem_0 (l : list pystr) : M pystr :=
  match l with
  | x :: _ => mret x
  | [] => raise IndexError
  end.

End Runtime.
Export Runtime.

(** ** src/interfaces/model.py *)

Module ModelInterface.

(** The one operation a model offers. *)
Class ModelInterface (T : Type) := generate_response : T → pystr → M pyval.

(** The base class's own method. *)
Definition base_generate_response (question : pystr) : M pyval :=
  raise NotImplementedError.

End ModelInterface.
Export ModelInterface.

(** ** src/models/openai.py *)

Module OpenaiModel.

Record t := mk {
  api_key : option pystr;
  model : pystr;
  word_limit : Z
}.

(** [OpenaiModel.__init__]. *)
Definition init (api_key : option pystr) : M t :=
  env_model ← getenv (str "OPENAI_MODEL");
  mret {| api_key := api_key;
          model := default (str "gpt-3.5-turbo-instruct") env_model;
          word_limit := 100 |}.

(** The request [generate_response] sends. *)
Definition request (self : t) (question : pystr) : Request :=
  {| url := str "https://api.openai.com/v1/engines/" ++ model self
            ++ str "/completions";
     prompt := question;
     max_tokens := word_limit self * 5;
     authorization := str "Bearer " ++ format_opt (api_key self) |}.

(** [OpenaiModel.generate_response]: both [except] clauses print and fall
    through to the final [return None]. *)
Definition generate_response (self : t) (question : pystr) : M pyval :=
  try_except
    (response ← post (request self question);
     raise_for_status response;;
     data ← response_json response;
     choices ← getitem_str data (str "choices");
     first ← getitem_0 choices;
     text ← getitem_str first (str "text");
     stripped ← strip_method text;
     mret (VStr stripped))
    (λ e,
       (if is_HTTPError e
        then print (str "HTTP error occurred: ") e
        else print (str "An error occurred: ") e);;
       mret VNone).

#[global] Instance interface : ModelInterface t := generate_response.

End OpenaiModel.

(** ** src/models/gemini.py *)

Module GeminiModel.

Record t := mk {
  api_key : option pystr;
  model : option pystr;
  word_limit : Z
}.

(** [GeminiModel.__init__]: a failing [genai.configure] is printed and
    re-raised. *)
Definition init (api_key : option pystr) : M t :=
  env_model ← getenv (str "GEMINI_MODEL");
  let self := {| api_key := api_key; model := env_model; word_limit := 100 |} in
  try_except
    (configure api_key)
    (λ e,
       print (str "Failed to configure Gemini API with provided API key: ") e;;
       raise e);;
  mret self.

(** The prompt [generate_response] builds. *)
Definition build_prompt (self : t) (question : pystr) : pystr :=
  (str "Answer this question in " ++ str_of_int (word_limit self)
   ++ str " words: ") ++ question.

(** [GeminiModel.generate_response]: the client is built, then asked, then
    the text of the answer is read; a failure of any of the three steps is
    printed and re-raised. *)
Definition generate_response (self : t) (question : pystr) : M pyval :=
  try_except
    (model ← new_GenerativeModel (model self);
     response ← generate_content model (build_prompt self question);
     text ← get_text response;
     mret (VStr text))
    (λ e,
       print (str "Error generating response from Gemini model: ") e;;
       raise e).

#[global] Instance interface : ModelInterface t := generate_response.

End GeminiModel.

(** ** src/handlers/commands.py *)

Module CommandHandler.

(** What a slot of [self.models] can hold: an instance of one of the
    three classes, or [None]. *)
Inductive pyobj :=
| ObjGemini (g : GeminiModel.t)
| ObjOpenai (o : OpenaiModel.t)
| ObjInterface
| ObjNone.

(** [bool(obj)]: none of the classes defines [__bool__] or [__len__], so
    every instance is true. *)
Definition truthy (obj : pyobj) : bool :=
  match obj with
  | ObjNone => false
  | ObjGemini _ | ObjOpenai _ | ObjInterface => true
  end.

(** [obj.generate_response(message)], resolved on the class of [obj]. *)
Definition call_generate_response (obj : pyobj) (message : pystr) : M pyval :=
  match obj with
  | ObjGemini g => generate_response g message
  | ObjOpenai o => generate_response o message
  | ObjInterface => base_generate_response message
  | ObjNone => raise AttributeError
  end.

(** [self.commands] holds bound methods, callables on the message;
    [self.models] holds the backends. *)
Record t := mk {
  commands : gmap (list N) (pystr → M pyval);
  models : gmap (list N) pyobj
}.

(** [handle_default]. *)
Definition handle_default (message : pystr) : M pyval :=
  mret (VStr (str "Sorry, I didn't understand that command.")).

(** [handle_gemini]; of [self] it reads [self.models] only.
    [dict.get(key)] is [None] for a missing key. *)
Definition handle_gemini (self_models : gmap (list N) pyobj) (message : pystr) : M pyval :=
  let model := default ObjNone (self_models !! str "gemini") in
  if truthy model
  then try_except
         (call_generate_response model message)
         (λ e,
            print (str "Error generating response with Gemini model: ") e;;
            mret (VStr (str "An error occurred while generating a response.")))
  else mret (VStr (str "Gemini model is not available.")).

(** [handle_openai]. *)
Definition handle_openai (self_models : gmap (list N) pyobj) (message : pystr) : M pyval :=
  let model := default ObjNone (self_models !! str "openai") in
  if truthy model
  then try_except
         (call_generate_response model message)
         (λ e,
            print (str "Error generating response with OpenAI model: ") e;;
            mret (VStr (str "An error occurred while generating a response.")))
  else mret (VStr (str "OpenAI model is not available.")).

(** The dispatch mapping [__init__] builds over a models mapping. *)
Definition init_commands (self_models : gmap (list N) pyobj)
  : gmap (list N) (pystr → M pyval) :=
  <[str "gemini" := handle_gemini self_models]>
    (<[str "openai" := handle_openai self_models]> ∅).

(** [CommandHandler.__init__]. *)
Definition init : M t :=
  gemini_key ← getenv (str "GEMINI_API_KEY");
  g ← GeminiModel.init gemini_key;
  openai_key ← getenv (str "OPENAI_API_KEY");
  o ← OpenaiModel.init openai_key;
  let self_models : gmap (list N) pyobj :=
    <[str "gemini" := ObjGemini g]> (<[str "openai" := ObjOpenai o]> ∅) in
  mret {| commands := init_commands self_models; models := self_models |}.

(** [handle_command]. *)
Definition handle_command (self : t) (command message : pystr) : M pyval :=
  let handler := default handle_default (commands self !! command) in
  try_except
    (handler message)
    (λ e,
       print (str "Error handling command '" ++ command ++ str "': ") e;;
       mret (VStr (str "An error occurred while processing your command."))).

End CommandHandler.

(** ** src/app.py *)

Module App.

(** The two shapes of TwiML [bot] returns: [str(resp)] after
    [resp.message().body(response)], and
    [str(MessagingResponse().message(text))].  Building and printing the
    envelope is the messaging library's; it is taken to succeed. *)
Inductive twiml :=
| ResponseMessageBody (response : pyval)
| MessageText (text : pystr).

(** The body of the message a reply carries. *)
Definition reply_body (r : twiml) : pyval :=
  match r with
  | ResponseMessageBody response => response
  | MessageText text => VStr text
  end.

Section Bot.
(** [str.lower]. *)
Variable lower : pystr → pystr.

(** [bot], on the form values of the request. *)
Definition bot (command_handler : CommandHandler.t)
    (values : gmap (list N) (list N)) : M twiml :=
  try_except
    (let incoming_msg := default (str "") (values !! str "Body") in
     first ← list_getitem_0 (split incoming_msg);
     let first_word := lower first in
     let message := join (str " ") (drop 1 (split incoming_msg)) in
     response ← CommandHandler.handle_command command_handler first_word message;
     mret (ResponseMessageBody response))
    (λ e,
       print (str "An error occurred while processing the request: ") e;;
       mret (MessageText (str "Sorry, an error occurred while processing your request."))).
End Bot.

End App.

(** ** Vocabulary of the properties *)

Module Props.
Import CommandHandler.

(** Only whitespace. *)
Definition blank (s : pystr) : Prop := Forall (λ c, isspace c = true) s.

(** A token: not empty, no whitespace. *)
Definition word (s : pystr) : Prop :=
  s ≠ [] ∧ Forall (λ c, isspace c = false) s.

(** Empty, or whitespace comes first. *)
Definition starts_blank (s : pystr) : Prop :=
  match s with
  | [] => True
  | c :: _ => isspace c = true
  end.

(** [tokens_of s ts]: [s] is the tokens [ts], in order, each one preceded
    by any amount of whitespace and followed by whitespace or by the end
    of [s]. *)
Inductive tokens_of : pystr → list pystr → Prop :=
| tokens_blank ws :
    blank ws → tokens_of ws []
| tokens_word ws t rest ts :
    blank ws → word t → starts_blank rest → tokens_of rest ts →
    tokens_of (ws ++ t ++ rest) (t :: ts).

(** [stripped_of s t]: [t] is [s] without the whitespace at its two
    ends. *)
Definition stripped_of (s t : pystr) : Prop :=
  ∃ l r, s = l ++ t ++ r ∧ blank l ∧ blank r
         ∧ (∀ c, head t = Some c → isspace c = false)
         ∧ (∀ c, last t = Some c → isspace c = false).

(** The two backends of the dispatcher, with the key, the wrapper handler
    and the fixed text of each. *)
Inductive backend := Gemini | OpenAI.

Definition backend_key (b : backend) : pystr :=
  match b with
  | Gemini => str "gemini"
  | OpenAI => str "openai"
  end.

Definition wrapper (b : backend) : gmap (list N) pyobj → pystr → M pyval :=
  match b with
  | Gemini => handle_gemini
  | OpenAI => handle_openai
  end.

Definition not_available (b : backend) : pystr :=
  match b with
  | Gemini => str "Gemini model is not available."
  | OpenAI => str "OpenAI model is not available."
  end.

Definition wrapper_log_prefix (b : backend) : pystr :=
  match b with
  | Gemini => str "Error generating response with Gemini model: "
  | OpenAI => str "Error generating response with OpenAI model: "
  end.

(** The instance under [key] is missing from the mapping, or false. *)
Definition unavailable (self_models : gmap (list N) pyobj) (key : pystr) : Prop :=
  self_models !! key = None
  ∨ ∃ obj, self_models !! key = Some obj ∧ truthy obj = false.

(** The outbound call of the OpenAI backend fails: [requests.post] raises,
    or the status it returns makes [raise_for_status] raise. *)
Definition outbound_call_fails (w : World) (req : Request) : bool :=
  match requests_post w req with
  | inl _ => true
  | inr r => ((400 <=? status_code r) && (status_code r <? 600))%Z
  end.

(** The outbound calls of a run. *)
Definition outbound {A} (r : list event * outcome A) : list event :=
  filter (λ ev, is_outbound ev = true) r.1.

End Props.

(** ** Scenarios *)

Module Scenario.
Import CommandHandler App.

Definition env (name : pystr) : option pystr :=
  if decide (name = str "GEMINI_API_KEY") then Some (str "g-key")
  else if decide (name = str "OPENAI_API_KEY") then Some (str "o-key")
  else if decide (name = str "GEMINI_MODEL") then Some (str "gemini-pro")
  else None.

(** [genai.GenerativeModel(name)] accepts a name and raises [TypeError] on
    [None]. *)
Definition client_check (name : option pystr) : option exn :=
  match name with
  | Some _ => None
  | None => Some TypeError
  end.

(** A generative answer whose text can be read. *)
Definition answer (text : pystr) : exn + GenerateContentResponse :=
  inr {| response_text := inr text |}.

(** A completions body with one choice. *)
Definition completion (text : pystr) : json :=
  JDict {[ str "choices" := JList [JDict {[ str "text" := JStr text ]}] ]}.

(** Both providers answer. *)
Definition world_up : World :=
  {| os_getenv := env;
     genai_configure := λ _, None;
     genai_GenerativeModel := client_check;
     genai_generate_content := λ _ _, answer (str " Rust is a language. ");
     requests_post := λ _,
       inr {| status_code := 200;
              body := Some (completion (str "  Hi there! ")) |} |}.

(** Neither provider can be reached. *)
Definition world_down : World :=
  {| os_getenv := env;
     genai_configure := λ _, None;
     genai_GenerativeModel := client_check;
     genai_generate_content := λ _ _, inl (LibraryError (str "DeadlineExceeded"));
     requests_post := λ _, inl (LibraryError (str "ConnectionError")) |}.

(** The completions endpoint refuses the key. *)
Definition world_unauthorized : World :=
  {| os_getenv := env;
     genai_configure := λ _, None;
     genai_GenerativeModel := client_check;
     genai_generate_content := λ _ _, answer (str "ok");
     requests_post := λ _, inr {| status_code := 401; body := Some JNone |} |}.

Definition gemini_instance : GeminiModel.t :=
  {| GeminiModel.api_key := Some (str "g-key");
     GeminiModel.model := Some (str "gemini-pro");
     GeminiModel.word_limit := 100 |}.

Definition openai_instance : OpenaiModel.t :=
  {| OpenaiModel.api_key := Some (str "o-key");
     OpenaiModel.model := str "gpt-3.5-turbo-instruct";
     OpenaiModel.word_limit := 100 |}.

Definition the_models : gmap (list N) pyobj :=
  <[str "gemini" := ObjGemini gemini_instance]>
    (<[str "openai" := ObjOpenai openai_instance]> ∅).

(** The handler [CommandHandler()] builds under [env]. *)
Definition command_handler : CommandHandler.t :=
  {| commands := init_commands the_models; models := the_models |}.

(** A handler with one extra command bound to the base class's method. *)
Definition abstract_handler : CommandHandler.t :=
  {| commands := <[str "base" := base_generate_response]> (init_commands the_models);
     models := the_models |}.

(** The form of a request whose [Body] is [b]. *)
Definition form (b : string) : gmap (list N) (list N) := {[ str "Body" := str b ]}.

End Scenario.

(** ** Further scenarios *)

Module EdgeScenario.
Import CommandHandler App.

(** No variable of the environment is set; both providers answer, but no
    Gemini client can be built without a model name. *)
Definition world_bare : World :=
  {| os_getenv := λ _, None;
     genai_configure := λ _, None;
     genai_GenerativeModel := Scenario.client_check;
     genai_generate_content := λ _ _, Scenario.answer (str "fine");
     requests_post := λ _,
       inr {| status_code := 200;
              body := Some (Scenario.completion (str "fine")) |} |}.

(** The completions endpoint answers with no choice at all. *)
Definition world_no_choice : World :=
  {| os_getenv := Scenario.env;
     genai_configure := λ _, None;
     genai_GenerativeModel := Scenario.client_check;
     genai_generate_content := λ _ _, Scenario.answer (str "fine");
     requests_post := λ _,
       inr {| status_code := 200;
              body := Some (JDict {[ str "choices" := JList [] ]}) |} |}.

(** The generative call answers with a response whose text cannot be read
    (no candidate). *)
Definition world_blocked : World :=
  {| os_getenv := Scenario.env;
     genai_configure := λ _, None;
     genai_GenerativeModel := Scenario.client_check;
     genai_generate_content := λ _ _, inr {| response_text := inl ValueError |};
     requests_post := λ _, inl (LibraryError (str "ConnectionError")) |}.

(** [genai.configure] refuses the key. *)
Definition world_unconfigured : World :=
  {| os_getenv := Scenario.env;
     genai_configure := λ _, Some (LibraryError (str "DefaultCredentialsError"));
     genai_GenerativeModel := Scenario.client_check;
     genai_generate_content := λ _ _, Scenario.answer (str "fine");
     requests_post := λ _, inl (LibraryError (str "ConnectionError")) |}.

Definition bare_gemini : GeminiModel.t :=
  {| GeminiModel.api_key := None;
     GeminiModel.model := None;
     GeminiModel.word_limit := 100 |}.

Definition bare_openai : OpenaiModel.t :=
  {| OpenaiModel.api_key := None;
     OpenaiModel.model := str "gpt-3.5-turbo-instruct";
     OpenaiModel.word_limit := 100 |}.

Definition bare_models : gmap (list N) pyobj :=
  <[str "gemini" := ObjGemini bare_gemini]>
    (<[str "openai" := ObjOpenai bare_openai]> ∅).

(** The handler [CommandHandler()] builds when nothing is set. *)
Definition bare_handler : CommandHandler.t :=
  {| commands := init_commands bare_models; models := bare_models |}.

(** A models mapping whose "gemini" slot holds a plain [ModelInterface]. *)
Definition interface_models : gmap (list N) pyobj :=
  {[ str "gemini" := ObjInterface ]}.

End EdgeScenario.

(** ** Facts about the string operations *)

Ltac unfold_M :=
  unfold mbind, M_mbind, M_bind, mret, M_mret, M_ret, try_except, raise,
    print, emit, getenv, configure, new_GenerativeModel, generate_content,
    get_text, post in *.

Section StringFacts.
Import Props.

Lemma reverse_not_nil (l : list N) : l ≠ [] → reverse l ≠ [].
Proof.
  intros Hl Hnil. apply Hl.
  apply (f_equal length) in Hnil. rewrite length_reverse in Hnil.
  by destruct l.
Qed.

Lemma split_from_blank (ws s : list N) :
  blank ws → split_from [] (ws ++ s) = split_from [] s.
Proof.
  induction 1 as [|c ws Hc _ IH]; [done|].
  simpl. by rewrite Hc.
Qed.

Lemma split_from_word (t cur s : list N) :
  Forall (λ c, isspace c = false) t →
  split_from cur (t ++ s) = split_from (reverse t ++ cur) s.
Proof.
  intros Ht. revert cur.
  induction Ht as [|c t Hc _ IH]; intros cur; [done|].
  simpl. rewrite Hc, IH. by rewrite reverse_cons, <- app_assoc.
Qed.

Lemma split_from_boundary (cur s : list N) :
  cur ≠ [] → starts_blank s →
  split_from cur s = reverse cur :: split_from [] s.
Proof.
  intros Hcur Hs.
  destruct cur as [|c0 cur]; [done|].
  destruct s as [|c s]; [done|].
  simpl in *. by rewrite Hs.
Qed.

(** [split] returns the tokens of every layout of them. *)
Lemma split_tokens (s : list N) (ts : list (list N)) :
  tokens_of s ts → split s = ts.
Proof.
  unfold split.
  induction 1 as [ws Hws|ws t rest ts Hws [Hne Ht] Hrest _ IH].
  - rewrite <- (app_nil_r ws). by rewrite split_from_blank.
  - rewrite split_from_blank by done.
    rewrite split_from_word by done.
    rewrite app_nil_r.
    rewrite split_from_boundary; [|by apply reverse_not_nil|done].
    by rewrite reverse_involutive, IH.
Qed.

Lemma tokens_of_space (c : N) (s : list N) (ts : list (list N)) :
  isspace c = true → tokens_of s ts → tokens_of (c :: s) ts.
Proof.
  intros Hc Hs.
  destruct Hs as [ws Hws|ws t rest ts Hws Ht Hrest Hts].
  - apply tokens_blank. by constructor.
  - apply (tokens_word (c :: ws)); [by constructor|done..].
Qed.

Lemma tokens_of_split_from (s cur : list N) :
  Forall (λ c, isspace c = false) cur →
  tokens_of (reverse cur ++ s) (split_from cur s).
Proof.
  revert cur.
  induction s as [|c s IH]; intros cur Hcur.
  - destruct cur as [|c0 cur]; simpl split_from.
    + apply tokens_blank. constructor.
    + apply (tokens_word [] (reverse (c0 :: cur)) []); [constructor| |done|].
      * split; [by apply reverse_not_nil|by apply Forall_reverse].
      * apply tokens_blank. constructor.
  - simpl split_from.
    destruct (isspace c) eqn:Hc.
    + pose proof (tokens_of_space c _ _ Hc (IH [] (Forall_nil_2 _))) as Htail.
      destruct cur as [|c0 cur]; [done|].
      apply (tokens_word [] (reverse (c0 :: cur)) (c :: s)); [constructor| |done|done].
      split; [by apply reverse_not_nil|by apply Forall_reverse].
    + specialize (IH (c :: cur)).
      rewrite reverse_cons, <- app_assoc in IH.
      apply IH. by constructor.
Qed.

(** Every string is a layout of what [split] returns for it. *)
Lemma tokens_of_split (s : list N) : tokens_of s (split s).
Proof. apply (tokens_of_split_from s []). constructor. Qed.

Lemma lstrip_spec (s : list N) :
  ∃ l, s = l ++ lstrip s ∧ blank l
       ∧ ∀ c, head (lstrip s) = Some c → isspace c = false.
Proof.
  induction s as [|c s (l & Heq & Hl & Hhead)].
  - exists []. repeat split; [constructor|done].
  - simpl. destruct (isspace c) eqn:Hc.
    + exists (c :: l). repeat split; [by rewrite Heq at 1|by constructor|done].
    + exists []. repeat split; [constructor|].
      intros c' [= <-]. done.
Qed.

Lemma rstrip_spec (s : list N) :
  ∃ r, s = rstrip s ++ r ∧ blank r
       ∧ ∀ c, last (rstrip s) = Some c → isspace c = false.
Proof.
  unfold rstrip.
  destruct (lstrip_spec (reverse s)) as (l & Heq & Hl & Hhead).
  exists (reverse l). repeat split.
  - rewrite <- reverse_app, <- Heq. by rewrite reverse_involutive.
  - by apply Forall_reverse.
  - intros c. rewrite last_reverse. apply Hhead.
Qed.

(** [strip] removes the whitespace at both ends, and nothing else. *)
Lemma strip_spec (s : list N) : stripped_of s (strip s).
Proof.
  unfold strip.
  destruct (lstrip_spec s) as (l & Hl_eq & Hl & Hhead).
  destruct (rstrip_spec (lstrip s)) as (r & Hr_eq & Hr & Hlast).
  exists l, r. repeat split; [|done|done| |done].
  - by rewrite <- Hr_eq.
  - intros c Hc. apply Hhead.
    rewrite Hr_eq. destruct (rstrip (lstrip s)); [done|]. exact Hc.
Qed.

End StringFacts.

(** ** Facts about the dispatcher *)

Section DispatcherFacts.
Import Props CommandHandler.

Lemma OpenaiModel_init_run (api_key : option (list N)) (w : World) :
  OpenaiModel.init api_key w =
    ([], Return {| OpenaiModel.api_key := api_key;
                   OpenaiModel.model :=
                     default (str "gpt-3.5-turbo-instruct")
                             (os_getenv w (str "OPENAI_MODEL"));
                   OpenaiModel.word_limit := 100 |}).
Proof. reflexivity. Qed.

Lemma GeminiModel_init_inv (api_key : option (list N)) (w : World)
    (l : list event) (g : GeminiModel.t) :
  GeminiModel.init api_key w = (l, Return g) →
  g = {| GeminiModel.api_key := api_key;
         GeminiModel.model := os_getenv w (str "GEMINI_MODEL");
         GeminiModel.word_limit := 100 |}.
Proof.
  unfold GeminiModel.init. unfold_M. simpl.
  destruct (genai_configure w api_key); simpl; congruence.
Qed.

(** What a completed [CommandHandler()] holds. *)
Lemma init_inv (w : World) (l : list event) (h : CommandHandler.t) :
  CommandHandler.init w = (l, Return h) →
  ∃ g o,
    models h = <[str "gemini" := ObjGemini g]> (<[str "openai" := ObjOpenai o]> ∅)
    ∧ commands h = init_commands (models h)
    ∧ GeminiModel.word_limit g = 100%Z
    ∧ OpenaiModel.word_limit o = 100%Z.
Proof.
  unfold CommandHandler.init.
  unfold mbind at 1 2, M_mbind, M_bind at 1 2, getenv at 1.
  cbv beta iota.
  destruct (GeminiModel.init _ w) as [lg [g|e]] eqn:Hg; [|intros [=]].
  apply GeminiModel_init_inv in Hg.
  unfold mbind, M_mbind, M_bind, getenv. rewrite OpenaiModel_init_run.
  intros [= _ <-]. eexists _, _. simpl.
  split; [reflexivity|]. split; [reflexivity|]. by rewrite Hg.
Qed.

Lemma init_commands_lookup (ms : gmap (list N) pyobj) (b : backend) :
  init_commands ms !! backend_key b = Some (wrapper b ms).
Proof.
  unfold init_commands. destruct b; simpl.
  - by rewrite lookup_insert_eq.
  - rewrite lookup_insert_ne by discriminate. by rewrite lookup_insert_eq.
Qed.

Lemma init_commands_lookup_other (ms : gmap (list N) pyobj) (command : list N) :
  command ≠ str "gemini" → command ≠ str "openai" →
  init_commands ms !! command = None.
Proof.
  intros Hg Ho. unfold init_commands.
  rewrite lookup_insert_ne by done. rewrite lookup_insert_ne by done.
  apply lookup_empty.
Qed.

(** [handle_command] in terms of what the resolved handler does. *)
Lemma handle_command_run (h : CommandHandler.t) (command message : list N)
    (w : World) :
  handle_command h command message w =
    match default handle_default (commands h !! command) message w with
    | (l, Return v) => (l, Return v)
    | (l, Raise e) =>
        (l ++ [EvPrint (str "Error handling command '" ++ command ++ str "': ") e],
         Return (VStr (str "An error occurred while processing your command.")))
    end.
Proof.
  unfold handle_command. unfold_M.
  destruct (default handle_default (commands h !! command) message w)
    as [l [v|e]]; reflexivity.
Qed.

(** The wrapper of each backend, unfolded. *)
Lemma wrapper_run (b : backend) (ms : gmap (list N) pyobj) (message : list N)
    (w : World) :
  wrapper b ms message w =
    let model := default ObjNone (ms !! backend_key b) in
    if truthy model
    then match call_generate_response model message w with
         | (l, Return v) => (l, Return v)
         | (l, Raise e) =>
             (l ++ [EvPrint (wrapper_log_prefix b) e],
              Return (VStr (str "An error occurred while generating a response.")))
         end
    else ([], Return (VStr (not_available b))).
Proof.
  destruct b; simpl; unfold handle_gemini, handle_openai; unfold_M;
    (destruct (truthy _); [|reflexivity]);
    destruct (call_generate_response _ message w) as [l [v|e]]; reflexivity.
Qed.

End DispatcherFacts.

(** ** Facts about the two backends *)

Section BackendFacts.
Import Props CommandHandler.

Lemma build_prompt_100 (g : GeminiModel.t) (question : list N) :
  GeminiModel.word_limit g = 100%Z →
  GeminiModel.build_prompt g question
  = str "Answer this question in 100 words: " ++ question.
Proof. unfold GeminiModel.build_prompt. by intros ->. Qed.

(** [GeminiModel.generate_response], by what each of its three steps
    meets. *)
Lemma gemini_generate_run (g : GeminiModel.t) (question : list N) (w : World) :
  GeminiModel.generate_response g question w =
    let p := GeminiModel.build_prompt g question in
    let failed := EvPrint (str "Error generating response from Gemini model: ") in
    match genai_GenerativeModel w (GeminiModel.model g) with
    | Some e => ([failed e], Raise e)
    | None =>
        match genai_generate_content w (GeminiModel.model g) p with
        | inl e => ([EvGenerate (GeminiModel.model g) p; failed e], Raise e)
        | inr response =>
            match response_text response with
            | inl e => ([EvGenerate (GeminiModel.model g) p; failed e], Raise e)
            | inr text => ([EvGenerate (GeminiModel.model g) p], Return (VStr text))
            end
        end
    end.
Proof.
  unfold GeminiModel.generate_response. unfold_M. simpl.
  destruct (genai_GenerativeModel w _); [reflexivity|].
  destruct (genai_generate_content w _ _) as [e|response]; [reflexivity|].
  destruct (response_text response); reflexivity.
Qed.

(** [OpenaiModel.generate_response] always starts with the one [post],
    makes no other outbound call, and always returns. *)
Lemma openai_generate_returns (o : OpenaiModel.t) (question : list N) (w : World) :
  ∃ l v,
    OpenaiModel.generate_response o question w
    = (EvPost (OpenaiModel.request o question) :: l, Return v)
    ∧ Forall (λ ev, is_outbound ev = false) l.
Proof.
  unfold OpenaiModel.generate_response.
  unfold raise_for_status, response_json, getitem_str, getitem_0, strip_method.
  unfold_M.
  destruct (requests_post w _) as [e|r].
  - destruct (is_HTTPError e); simpl;
      eexists _, _; (split; [reflexivity|repeat constructor]).
  - repeat (case_match; simpl in *; simplify_eq);
      eexists _, _; (split; [reflexivity|repeat constructor]).
Qed.

Lemma openai_generate_fails (o : OpenaiModel.t) (question : list N) (w : World) :
  outbound_call_fails w (OpenaiModel.request o question) = true →
  ∃ e,
    OpenaiModel.generate_response o question w
    = ([EvPost (OpenaiModel.request o question);
        EvPrint (if is_HTTPError e then str "HTTP error occurred: "
                 else str "An error occurred: ") e],
       Return VNone).
Proof.
  unfold outbound_call_fails, OpenaiModel.generate_response.
  unfold raise_for_status. unfold_M.
  destruct (requests_post w _) as [e|r].
  - intros _. exists e. by destruct (is_HTTPError e).
  - intros ->. by exists HTTPError.
Qed.

Lemma openai_generate_success (o : OpenaiModel.t) (question : list N) (w : World)
    (status : Z) (fields choice : gmap (list N) json) (items : list json)
    (text : list N) :
  requests_post w (OpenaiModel.request o question)
    = inr {| status_code := status; body := Some (JDict fields) |} →
  ¬ (400 ≤ status < 600)%Z →
  fields !! str "choices" = Some (JList (JDict choice :: items)) →
  choice !! str "text" = Some (JStr text) →
  OpenaiModel.generate_response o question w
  = ([EvPost (OpenaiModel.request o question)], Return (VStr (strip text))).
Proof.
  intros Hpost Hstatus Hchoices Htext.
  unfold OpenaiModel.generate_response.
  unfold raise_for_status, response_json, getitem_str, getitem_0, strip_method.
  unfold_M. rewrite Hpost. simpl.
  destruct (_ && _) eqn:Hbad; [exfalso; apply Hstatus; lia|].
  simpl. rewrite Hchoices. simpl. by rewrite Htext.
Qed.

End BackendFacts.

(** ** Facts about the endpoint *)

Section EndpointFacts.
Import Props CommandHandler App.
Variable lower : list N → list N.

(** [bot] on a message with a first token. *)
Lemma bot_run (h : CommandHandler.t) (values : gmap (list N) (list N))
    (w : World) (body t : list N) (rest : list (list N)) :
  values !! str "Body" = Some body →
  split body = t :: rest →
  bot lower h values w =
    match handle_command h (lower t) (join (str " ") rest) w with
    | (l, Return v) => (l, Return (ResponseMessageBody v))
    | (l, Raise e) =>
        (l ++ [EvPrint (str "An error occurred while processing the request: ") e],
         Return (MessageText (str "Sorry, an error occurred while processing your request.")))
    end.
Proof.
  intros Hbody Hsplit. unfold bot. rewrite Hbody. simpl default.
  rewrite Hsplit. unfold list_getitem_0. unfold_M. simpl.
  destruct (handle_command h _ _ w) as [l [v|e]]; simpl; [|done].
  by rewrite app_nil_r.
Qed.

(** [bot] on a message without any token. *)
Lemma bot_no_token (h : CommandHandler.t) (values : gmap (list N) (list N))
    (w : World) :
  split (default (str "") (values !! str "Body")) = [] →
  bot lower h values w
  = ([EvPrint (str "An error occurred while processing the request: ") IndexError],
     Return (MessageText (str "Sorry, an error occurred while processing your request."))).
Proof. intros Hsplit. unfold bot. by rewrite Hsplit. Qed.

End EndpointFacts.

Lemma scenario_handler_built :
  CommandHandler.init Scenario.world_up
  = ([EvConfigure (Some (str "g-key"))], Return Scenario.command_handler).
Proof. reflexivity. Qed.

(** ** The claims about the endpoint and the dispatcher *)

Section Claims.
Import Props CommandHandler App.
Variable lower : list N → list N.

(** C2, what the code does on an empty message: when the [Body] field is
    missing or is the empty string, [split] gives no token, [[0]] raises
    [IndexError] before any keyword or question exists, nothing is
    dispatched, and the reply carries the endpoint's own apology, not the
    default handler's text. *)
Theorem C2_empty_body_is_apology (h : CommandHandler.t)
    (values : gmap (list N) (list N)) (w : World) :
  values !! str "Body" = None ∨ values !! str "Body" = Some (str "") →
  ∃ reply,
    bot lower h values w
    = ([EvPrint (str "An error occurred while processing the request: ") IndexError],
       Return reply)
    ∧ reply_body reply = VStr (str "Sorry, an error occurred while processing your request.")
    ∧ reply_body reply ≠ VStr (str "Sorry, I didn't understand that command.").
Proof.
  intros Hbody. eexists.
  split; [apply bot_no_token; by destruct Hbody as [-> | ->]|].
  split; [reflexivity|discriminate].
Qed.

(** C3 (amended): for a message with at least one token, [bot] hands
    [handle_command] the lower-cased first token and the other tokens
    joined by single spaces, and replies with what it returns; so two
    messages that are layouts of the same tokens, up to the case of the
    first one, get the same dispatch, log and reply. *)
Theorem C3_tokens_decide_dispatch (h : CommandHandler.t)
    (values1 values2 : gmap (list N) (list N)) (w : World)
    (body1 body2 t1 t2 : list N) (rest : list (list N)) :
  values1 !! str "Body" = Some body1 →
  values2 !! str "Body" = Some body2 →
  tokens_of body1 (t1 :: rest) →
  tokens_of body2 (t2 :: rest) →
  lower t1 = lower t2 →
  ∃ l v,
    handle_command h (lower t1) (join (str " ") rest) w = (l, Return v)
    ∧ bot lower h values1 w = (l, Return (ResponseMessageBody v))
    ∧ bot lower h values2 w = (l, Return (ResponseMessageBody v)).
Proof.
  intros Hv1 Hv2 Ht1%split_tokens Ht2%split_tokens Hlow.
  rewrite (bot_run lower h values1 w body1 t1 rest Hv1 Ht1).
  rewrite (bot_run lower h values2 w body2 t2 rest Hv2 Ht2).
  rewrite <- Hlow. rewrite handle_command_run.
  destruct (default handle_default _ _ w) as [l [v|e]]; by eexists _, _.
Qed.

(** C4: whatever the resolved handler does, [handle_command] returns; if
    the handler raised, what it returns is the fixed text "An error
    occurred while processing your command.", and if the handler
    returned, its value. *)
Theorem C4_handle_command_never_raises (h : CommandHandler.t)
    (command message : list N) (w : World) (l : list event) (r : outcome pyval) :
  default handle_default (commands h !! command) message w = (l, r) →
  (∃ l' v, handle_command h command message w = (l', Return v))
  ∧ (∀ e, r = Raise e →
       handle_command h command message w
       = (l ++ [EvPrint (str "Error handling command '" ++ command ++ str "': ") e],
          Return (VStr (str "An error occurred while processing your command."))))
  ∧ (∀ v, r = Return v → handle_command h command message w = (l, Return v)).
Proof.
  intros Hrun. rewrite handle_command_run, Hrun.
  split; [destruct r; by eexists _, _|].
  split; by intros ? ->.
Qed.

(** C5: with the handler [CommandHandler()] builds, a message whose
    lower-cased first token is neither "gemini" nor "openai" has no entry
    in the dispatch mapping; [handle_command] and [bot] answer "Sorry, I
    didn't understand that command." whatever the rest of the message is,
    with nothing printed and no outbound call. *)
Theorem C5_unknown_keyword_default (w0 : World) (l0 : list event)
    (h : CommandHandler.t) (values : gmap (list N) (list N)) (w : World)
    (body t : list N) (rest : list (list N)) :
  CommandHandler.init w0 = (l0, Return h) →
  values !! str "Body" = Some body →
  tokens_of body (t :: rest) →
  lower t ≠ str "gemini" →
  lower t ≠ str "openai" →
  commands h !! lower t = None
  ∧ handle_command h (lower t) (join (str " ") rest) w
    = ([], Return (VStr (str "Sorry, I didn't understand that command.")))
  ∧ bot lower h values w
    = ([], Return (ResponseMessageBody
                     (VStr (str "Sorry, I didn't understand that command.")))).
Proof.
  intros (g & o & _ & Hcmds & _)%init_inv Hbody Ht%split_tokens Hg Ho.
  assert (commands h !! lower t = None) as Hnone.
  { rewrite Hcmds. by apply init_commands_lookup_other. }
  assert (handle_command h (lower t) (join (str " ") rest) w
          = ([], Return (VStr (str "Sorry, I didn't understand that command."))))
    as Hcmd.
  { rewrite handle_command_run, Hnone. reflexivity. }
  split; [done|]. split; [done|].
  rewrite (bot_run lower h values w body t rest Hbody Ht). by rewrite Hcmd.
Qed.

End Claims.

(** ** The claims about the backends and their wrappers *)

Section BackendClaims.
Import Props CommandHandler App.

(** C6: the OpenAI backend built by [__init__] sends the question itself
    as the prompt, with a budget of 500 tokens (5 times the word limit of
    100); this request is its only outbound call in every world; and when
    the call succeeds and the first choice has a text, it returns that
    text without the whitespace at its two ends. *)
Theorem C6_openai_prompt_budget_strip (api_key : option (list N)) (w0 : World)
    (l0 : list event) (o : OpenaiModel.t) (question : list N) (w : World)
    (status : Z) (fields choice : gmap (list N) json) (items : list json)
    (text : list N) :
  OpenaiModel.init api_key w0 = (l0, Return o) →
  requests_post w (OpenaiModel.request o question)
    = inr {| status_code := status; body := Some (JDict fields) |} →
  ¬ (400 ≤ status < 600)%Z →
  fields !! str "choices" = Some (JList (JDict choice :: items)) →
  choice !! str "text" = Some (JStr text) →
  prompt (OpenaiModel.request o question) = question
  ∧ max_tokens (OpenaiModel.request o question) = 500%Z
  ∧ (∀ w', outbound (OpenaiModel.generate_response o question w')
           = [EvPost (OpenaiModel.request o question)])
  ∧ OpenaiModel.generate_response o question w
    = ([EvPost (OpenaiModel.request o question)], Return (VStr (strip text)))
  ∧ stripped_of text (strip text).
Proof.
  rewrite OpenaiModel_init_run. intros [= _ <-] Hpost Hstatus Hchoices Htext.
  split; [reflexivity|]. split; [reflexivity|]. split; [|split].
  - intros w'.
    destruct (openai_generate_returns
                {| OpenaiModel.api_key := api_key;
                   OpenaiModel.model :=
                     default (str "gpt-3.5-turbo-instruct")
                             (os_getenv w0 (str "OPENAI_MODEL"));
                   OpenaiModel.word_limit := 100 |} question w')
      as (l & v & -> & Hl).
    unfold outbound. simpl fst.
    rewrite filter_cons_True by done. f_equal.
    induction Hl as [|ev l Hev _ IH]; [done|].
    rewrite filter_cons_False; [done|]. by rewrite Hev.
  - by apply (openai_generate_success _ _ _ status fields choice items).
  - apply strip_spec.
Qed.

(** C7 (amended): the Gemini backend built by [__init__] first builds its
    client for the configured model name; when that raises it makes no
    generative call at all, and otherwise exactly one, whose prompt is
    "Answer this question in 100 words: " followed by the question; and
    when the call succeeds and the text of the answer can be read, it
    returns that text as it is. *)
Theorem C7_gemini_prompt_verbatim (api_key : option (list N)) (w0 : World)
    (l0 : list event) (g : GeminiModel.t) (question text : list N) (w : World) :
  GeminiModel.init api_key w0 = (l0, Return g) →
  genai_GenerativeModel w (GeminiModel.model g) = None →
  genai_generate_content w (GeminiModel.model g)
    (str "Answer this question in 100 words: " ++ question)
  = inr {| response_text := inr text |} →
  GeminiModel.build_prompt g question
  = str "Answer this question in 100 words: " ++ question
  ∧ (∀ w', outbound (GeminiModel.generate_response g question w')
           = match genai_GenerativeModel w' (GeminiModel.model g) with
             | None =>
                 [EvGenerate (GeminiModel.model g)
                    (str "Answer this question in 100 words: " ++ question)]
             | Some _ => []
             end)
  ∧ GeminiModel.generate_response g question w
    = ([EvGenerate (GeminiModel.model g)
          (str "Answer this question in 100 words: " ++ question)],
       Return (VStr text)).
Proof.
  intros Hinit%GeminiModel_init_inv Hnew Hgen.
  assert (GeminiModel.build_prompt g question
          = str "Answer this question in 100 words: " ++ question) as Hprompt.
  { apply build_prompt_100. by rewrite Hinit. }
  split; [done|]. split.
  - intros w'. rewrite gemini_generate_run. cbv zeta. rewrite Hprompt.
    destruct (genai_GenerativeModel w' _); [reflexivity|].
    destruct (genai_generate_content w' _ _) as [e|response]; [reflexivity|].
    by destruct (response_text response).
  - rewrite gemini_generate_run. cbv zeta. rewrite Hprompt.
    by rewrite Hnew, Hgen.
Qed.

(** C8: when the instance of a backend is missing from the models mapping,
    or is false, its wrapper returns "<Provider> model is not available."
    and does nothing else: no outbound call, no line printed,
    [generate_response] is not called. *)
Theorem C8_unavailable_backend (b : backend) (self_models : gmap (list N) pyobj)
    (message : list N) (w : World) :
  unavailable self_models (backend_key b) →
  wrapper b self_models message w = ([], Return (VStr (not_available b))).
Proof.
  intros Hun. rewrite wrapper_run. cbv zeta.
  destruct Hun as [-> | (obj & -> & Hfalse)]; simpl default.
  - reflexivity.
  - by rewrite Hfalse.
Qed.

(** C9: when the outbound call of the OpenAI backend fails,
    [OpenaiModel.generate_response] does not raise: it returns [None];
    [handle_openai] and [handle_command] pass that [None] on, so the
    dispatcher gives back a value that is not a string. *)
Theorem C9_openai_failure_is_none (w0 : World) (l0 : list event)
    (h : CommandHandler.t) (o : OpenaiModel.t) (question : list N) (w : World) :
  CommandHandler.init w0 = (l0, Return h) →
  models h !! str "openai" = Some (ObjOpenai o) →
  outbound_call_fails w (OpenaiModel.request o question) = true →
  ∃ l,
    OpenaiModel.generate_response o question w = (l, Return VNone)
    ∧ handle_openai (models h) question w = (l, Return VNone)
    ∧ handle_command h (str "openai") question w = (l, Return VNone)
    ∧ ∀ s, VNone ≠ VStr s.
Proof.
  intros (g & o' & _ & Hcmds & _)%init_inv Hmodel (e & Hrun)%openai_generate_fails.
  assert (handle_openai (models h) question w
          = ([EvPost (OpenaiModel.request o question);
              EvPrint (if is_HTTPError e then str "HTTP error occurred: "
                       else str "An error occurred: ") e],
             Return VNone)) as Hwrap.
  { rewrite (wrapper_run OpenAI). simpl backend_key. rewrite Hmodel. simpl.
    unfold generate_response, OpenaiModel.interface. by rewrite Hrun. }
  eexists. split; [exact Hrun|]. split; [exact Hwrap|]. split; [|done].
  rewrite handle_command_run, Hcmds, (init_commands_lookup _ OpenAI).
  simpl. by rewrite Hwrap.
Qed.

(** C10: once [CommandHandler()] has completed, the models mapping holds
    an instance of the backend's class under each of "gemini" and
    "openai", and every instance is true; so for every message the guard
    of the wrapper holds, the wrapper runs its [try] block, and the "not
    available" branch is never taken. *)
Theorem C10_models_always_present (w0 : World) (l0 : list event)
    (h : CommandHandler.t) (b : backend) :
  CommandHandler.init w0 = (l0, Return h) →
  ∃ obj,
    models h !! backend_key b = Some obj
    ∧ match b, obj with
      | Gemini, ObjGemini _ | OpenAI, ObjOpenai _ => True
      | _, _ => False
      end
    ∧ truthy (default ObjNone (models h !! backend_key b)) = true
    ∧ ¬ unavailable (models h) (backend_key b)
    ∧ ∀ message w,
        wrapper b (models h) message w
        = try_except
            (call_generate_response obj message)
            (λ e,
               print (wrapper_log_prefix b) e;;
               mret (VStr (str "An error occurred while generating a response.")))
            w.
Proof.
  intros (g & o & Hmodels & _)%init_inv.
  assert (∃ obj, models h !! backend_key b = Some obj
                 ∧ match b, obj with
                   | Gemini, ObjGemini _ | OpenAI, ObjOpenai _ => True
                   | _, _ => False
                   end) as (obj & Hobj & Hclass).
  { rewrite Hmodels. destruct b; simpl.
    - exists (ObjGemini g). by rewrite lookup_insert_eq.
    - exists (ObjOpenai o).
      rewrite lookup_insert_ne by discriminate. by rewrite lookup_insert_eq. }
  assert (truthy obj = true) as Htrue.
  { destruct b, obj; done. }
  exists obj. split; [done|]. split; [done|].
  split; [by rewrite Hobj|]. split.
  - intros [Hnone | (obj' & Hobj' & Hfalse)]; [congruence|].
    rewrite Hobj in Hobj'. injection Hobj' as <-. congruence.
  - intros message w. rewrite wrapper_run. cbv zeta. rewrite Hobj. simpl default.
    rewrite Htrue. unfold_M.
    destruct (call_generate_response obj message w) as [l [v|e]]; reflexivity.
Qed.

End BackendClaims.

(** ** The claims on the scenarios *)

Section ScenarioClaims.
Import Props CommandHandler App Scenario.

(** C1, what the code does where the claim fails: with the body
    "openai hello" and an outbound call that raises,
    [OpenaiModel.generate_response] swallows the failure and returns
    [None], the [except] branch of [handle_openai] never runs, and the
    body of the reply is [None], not "An error occurred while generating
    a response.". *)
Theorem C1_failing_openai_reply_is_none :
  outbound_call_fails world_down (OpenaiModel.request openai_instance (str "hello")) = true
  ∧ handle_openai the_models (str "hello") world_down
    = ([EvPost (OpenaiModel.request openai_instance (str "hello"));
        EvPrint (str "An error occurred: ") (LibraryError (str "ConnectionError"))],
       Return VNone)
  ∧ bot ascii_lower command_handler (form "openai hello") world_down
    = ([EvPost (OpenaiModel.request openai_instance (str "hello"));
        EvPrint (str "An error occurred: ") (LibraryError (str "ConnectionError"))],
       Return (ResponseMessageBody VNone))
  ∧ reply_body (ResponseMessageBody VNone)
    ≠ VStr (str "An error occurred while generating a response.").
Proof.
  split; [reflexivity|]. split; [reflexivity|]. split; [|discriminate].
  rewrite (bot_run ascii_lower command_handler (form "openai hello") world_down
             (str "openai hello") (str "openai") [str "hello"]);
    [reflexivity|apply lookup_singleton_eq|reflexivity].
Qed.

Lemma C2_witness :
  ((∅ : gmap (list N) (list N)) !! str "Body" = None
   ∨ (∅ : gmap (list N) (list N)) !! str "Body" = Some (str ""))
  ∧ ∃ reply,
      bot ascii_lower command_handler ∅ world_up
      = ([EvPrint (str "An error occurred while processing the request: ") IndexError],
         Return reply)
      ∧ reply_body reply = VStr (str "Sorry, an error occurred while processing your request.")
      ∧ reply_body reply ≠ VStr (str "Sorry, I didn't understand that command.").
Proof.
  split; [left; apply lookup_empty|].
  apply (C2_empty_body_is_apology ascii_lower command_handler ∅ world_up).
  left. apply lookup_empty.
Defined.

(** C3 as stated fails: the message " " is not empty, yet it has no first
    token; [bot] raises [IndexError] before any dispatch and replies with
    its apology. *)
Lemma C3_counterexample_blank_message :
  ¬ (∀ body : list N, body ≠ [] →
       ∃ t rest l v,
         split body = t :: rest
         ∧ handle_command command_handler (ascii_lower t) (join (str " ") rest) world_up
           = (l, Return v)
         ∧ bot ascii_lower command_handler {[ str "Body" := body ]} world_up
           = (l, Return (ResponseMessageBody v)))
  ∧ split (str " ") = []
  ∧ bot ascii_lower command_handler (form " ") world_up
    = ([EvPrint (str "An error occurred while processing the request: ") IndexError],
       Return (MessageText (str "Sorry, an error occurred while processing your request."))).
Proof.
  split; [|split; reflexivity].
  intros Hclaim.
  destruct (Hclaim (str " ")) as (t & rest & l & v & Hsplit & _); [discriminate|].
  discriminate Hsplit.
Qed.

Lemma C3_witness :
  form "  Gemini   what is rust " !! str "Body" = Some (str "  Gemini   what is rust ")
  ∧ form "gemini what is rust" !! str "Body" = Some (str "gemini what is rust")
  ∧ tokens_of (str "  Gemini   what is rust ")
      [str "Gemini"; str "what"; str "is"; str "rust"]
  ∧ tokens_of (str "gemini what is rust")
      [str "gemini"; str "what"; str "is"; str "rust"]
  ∧ ascii_lower (str "Gemini") = ascii_lower (str "gemini")
  ∧ ∃ l v,
      handle_command command_handler (ascii_lower (str "Gemini"))
        (join (str " ") [str "what"; str "is"; str "rust"]) world_up
      = (l, Return v)
      ∧ bot ascii_lower command_handler (form "  Gemini   what is rust ") world_up
        = (l, Return (ResponseMessageBody v))
      ∧ bot ascii_lower command_handler (form "gemini what is rust") world_up
        = (l, Return (ResponseMessageBody v)).
Proof.
  pose proof (lookup_singleton_eq (M := gmap (list N))
                (str "Body") (str "  Gemini   what is rust ")) as H1.
  pose proof (lookup_singleton_eq (M := gmap (list N))
                (str "Body") (str "gemini what is rust")) as H2.
  pose proof (tokens_of_split (str "  Gemini   what is rust ")) as H3.
  pose proof (tokens_of_split (str "gemini what is rust")) as H4.
  assert (ascii_lower (str "Gemini") = ascii_lower (str "gemini")) as H5
    by reflexivity.
  repeat (split; [assumption|]).
  exact (C3_tokens_decide_dispatch ascii_lower command_handler _ _ world_up
           _ _ (str "Gemini") (str "gemini") [str "what"; str "is"; str "rust"]
           H1 H2 H3 H4 H5).
Defined.

Lemma C4_witness :
  default handle_default (commands abstract_handler !! str "base") (str "hi") world_up
  = ([], Raise NotImplementedError)
  ∧ handle_command abstract_handler (str "base") (str "hi") world_up
    = ([EvPrint (str "Error handling command 'base': ") NotImplementedError],
       Return (VStr (str "An error occurred while processing your command."))).
Proof.
  assert (default handle_default (commands abstract_handler !! str "base")
            (str "hi") world_up = ([], Raise NotImplementedError)) as Hrun.
  { unfold abstract_handler. simpl commands. by rewrite lookup_insert_eq. }
  split; [exact Hrun|].
  destruct (C4_handle_command_never_raises abstract_handler (str "base") (str "hi")
              world_up [] (Raise NotImplementedError) Hrun) as (_ & Hraise & _).
  exact (Hraise NotImplementedError eq_refl).
Defined.

Lemma C5_witness :
  CommandHandler.init world_up
  = ([EvConfigure (Some (str "g-key"))], Return command_handler)
  ∧ form "Ping  are you there" !! str "Body" = Some (str "Ping  are you there")
  ∧ tokens_of (str "Ping  are you there")
      [str "Ping"; str "are"; str "you"; str "there"]
  ∧ ascii_lower (str "Ping") ≠ str "gemini"
  ∧ ascii_lower (str "Ping") ≠ str "openai"
  ∧ bot ascii_lower command_handler (form "Ping  are you there") world_down
    = ([], Return (ResponseMessageBody
                     (VStr (str "Sorry, I didn't understand that command.")))).
Proof.
  pose proof scenario_handler_built as H1.
  pose proof (lookup_singleton_eq (M := gmap (list N))
                (str "Body") (str "Ping  are you there")) as H2.
  pose proof (tokens_of_split (str "Ping  are you there")) as H3.
  assert (ascii_lower (str "Ping") ≠ str "gemini") as H4 by discriminate.
  assert (ascii_lower (str "Ping") ≠ str "openai") as H5 by discriminate.
  repeat (split; [assumption|]).
  exact (proj2 (proj2 (C5_unknown_keyword_default ascii_lower world_up _
                         command_handler _ world_down _ (str "Ping")
                         [str "are"; str "you"; str "there"] H1 H2 H3 H4 H5))).
Defined.

Lemma C6_witness :
  OpenaiModel.init (Some (str "o-key")) world_up = ([], Return openai_instance)
  ∧ requests_post world_up (OpenaiModel.request openai_instance (str "hello"))
    = inr {| status_code := 200;
             body := Some (JDict {[ str "choices" :=
                                      JList [JDict {[ str "text" := JStr (str "  Hi there! ") ]}] ]}) |}
  ∧ ¬ (400 ≤ 200 < 600)%Z
  ∧ max_tokens (OpenaiModel.request openai_instance (str "hello")) = 500%Z
  ∧ OpenaiModel.generate_response openai_instance (str "hello") world_up
    = ([EvPost (OpenaiModel.request openai_instance (str "hello"))],
       Return (VStr (str "Hi there!"))).
Proof.
  assert (OpenaiModel.init (Some (str "o-key")) world_up
          = ([], Return openai_instance)) as H1 by reflexivity.
  assert (requests_post world_up (OpenaiModel.request openai_instance (str "hello"))
          = inr {| status_code := 200;
                   body := Some (JDict {[ str "choices" :=
                     JList [JDict {[ str "text" := JStr (str "  Hi there! ") ]}] ]}) |})
    as H2 by reflexivity.
  assert (¬ (400 ≤ 200 < 600)%Z) as H3 by lia.
  pose proof (lookup_singleton_eq (M := gmap (list N)) (str "choices")
                (JList [JDict {[ str "text" := JStr (str "  Hi there! ") ]}])) as H4.
  pose proof (lookup_singleton_eq (M := gmap (list N)) (str "text")
                (JStr (str "  Hi there! "))) as H5.
  repeat (split; [assumption|]).
  destruct (C6_openai_prompt_budget_strip (Some (str "o-key")) world_up []
              openai_instance (str "hello") world_up 200 _ _ [] _ H1 H2 H3 H4 H5)
    as (_ & Hbudget & _ & Hrun & _).
  split; [exact Hbudget|exact Hrun].
Defined.

Lemma C7_witness :
  GeminiModel.init (Some (str "g-key")) world_up
  = ([EvConfigure (Some (str "g-key"))], Return gemini_instance)
  ∧ genai_GenerativeModel world_up (GeminiModel.model gemini_instance) = None
  ∧ genai_generate_content world_up (GeminiModel.model gemini_instance)
      (str "Answer this question in 100 words: " ++ str "what is rust")
    = inr {| response_text := inr (str " Rust is a language. ") |}
  ∧ GeminiModel.generate_response gemini_instance (str "what is rust") world_up
    = ([EvGenerate (Some (str "gemini-pro"))
          (str "Answer this question in 100 words: what is rust")],
       Return (VStr (str " Rust is a language. "))).
Proof.
  assert (GeminiModel.init (Some (str "g-key")) world_up
          = ([EvConfigure (Some (str "g-key"))], Return gemini_instance)) as H1
    by reflexivity.
  assert (genai_GenerativeModel world_up (GeminiModel.model gemini_instance) = None)
    as H2 by reflexivity.
  assert (genai_generate_content world_up (GeminiModel.model gemini_instance)
            (str "Answer this question in 100 words: " ++ str "what is rust")
          = inr {| response_text := inr (str " Rust is a language. ") |}) as H3
    by reflexivity.
  repeat (split; [assumption|]).
  exact (proj2 (proj2 (C7_gemini_prompt_verbatim (Some (str "g-key")) world_up _
                         gemini_instance (str "what is rust") _ world_up H1 H2 H3))).
Defined.

(** C7 as stated fails: with GEMINI_MODEL unset the backend is built with
    no model name, [genai.GenerativeModel(None)] raises [TypeError] before
    any prompt is sent, and [generate_response] makes no generative call:
    it prints the failure and re-raises it. *)
Lemma C7_counterexample_no_model_name :
  ¬ (∀ (api_key : option (list N)) (w0 : World) (l0 : list event)
       (g : GeminiModel.t) (question : list N) (w : World),
       GeminiModel.init api_key w0 = (l0, Return g) →
       outbound (GeminiModel.generate_response g question w)
       = [EvGenerate (GeminiModel.model g)
            (str "Answer this question in 100 words: " ++ question)])
  ∧ GeminiModel.init None EdgeScenario.world_bare
    = ([EvConfigure None], Return EdgeScenario.bare_gemini)
  ∧ GeminiModel.generate_response EdgeScenario.bare_gemini (str "what is rust")
      EdgeScenario.world_bare
    = ([EvPrint (str "Error generating response from Gemini model: ") TypeError],
       Raise TypeError).
Proof.
  split; [|split; reflexivity].
  intros Hclaim.
  specialize (Hclaim None EdgeScenario.world_bare [EvConfigure None]
                EdgeScenario.bare_gemini (str "what is rust")
                EdgeScenario.world_bare eq_refl).
  discriminate Hclaim.
Qed.

Lemma C8_witness :
  unavailable (∅ : gmap (list N) pyobj) (backend_key Gemini)
  ∧ unavailable ({[ str "openai" := ObjNone ]} : gmap (list N) pyobj) (backend_key OpenAI)
  ∧ handle_gemini ∅ (str "what is rust") world_up
    = ([], Return (VStr (str "Gemini model is not available.")))
  ∧ handle_openai {[ str "openai" := ObjNone ]} (str "hello") world_up
    = ([], Return (VStr (str "OpenAI model is not available."))).
Proof.
  assert (unavailable (∅ : gmap (list N) pyobj) (backend_key Gemini)) as H1.
  { left. apply lookup_empty. }
  assert (unavailable ({[ str "openai" := ObjNone ]} : gmap (list N) pyobj)
            (backend_key OpenAI)) as H2.
  { right. exists ObjNone. split; [apply lookup_singleton_eq|reflexivity]. }
  repeat (split; [assumption|]).
  split.
  - exact (C8_unavailable_backend Gemini ∅ (str "what is rust") world_up H1).
  - exact (C8_unavailable_backend OpenAI _ (str "hello") world_up H2).
Defined.

Lemma C9_witness :
  CommandHandler.init world_up
  = ([EvConfigure (Some (str "g-key"))], Return command_handler)
  ∧ models command_handler !! str "openai" = Some (ObjOpenai openai_instance)
  ∧ outbound_call_fails world_unauthorized
      (OpenaiModel.request openai_instance (str "hello")) = true
  ∧ ∃ l,
      OpenaiModel.generate_response openai_instance (str "hello") world_unauthorized
      = (l, Return VNone)
      ∧ handle_openai (models command_handler) (str "hello") world_unauthorized
        = (l, Return VNone)
      ∧ handle_command command_handler (str "openai") (str "hello") world_unauthorized
        = (l, Return VNone)
      ∧ ∀ s, VNone ≠ VStr s.
Proof.
  pose proof scenario_handler_built as H1.
  assert (models command_handler !! str "openai" = Some (ObjOpenai openai_instance))
    as H2.
  { unfold command_handler, the_models. simpl models.
    rewrite lookup_insert_ne by discriminate. apply lookup_insert_eq. }
  assert (outbound_call_fails world_unauthorized
            (OpenaiModel.request openai_instance (str "hello")) = true) as H3
    by reflexivity.
  repeat (split; [assumption|]).
  exact (C9_openai_failure_is_none world_up _ command_handler openai_instance
           (str "hello") world_unauthorized H1 H2 H3).
Defined.

Lemma C10_witness :
  CommandHandler.init world_up
  = ([EvConfigure (Some (str "g-key"))], Return command_handler)
  ∧ truthy (default ObjNone (models command_handler !! backend_key Gemini)) = true
  ∧ truthy (default ObjNone (models command_handler !! backend_key OpenAI)) = true.
Proof.
  pose proof scenario_handler_built as H1.
  split; [assumption|]. split.
  - destruct (C10_models_always_present world_up _ command_handler Gemini H1)
      as (obj & _ & _ & Hguard & _).
    exact Hguard.
  - destruct (C10_models_always_present world_up _ command_handler OpenAI H1)
      as (obj & _ & _ & Hguard & _).
    exact Hguard.
Defined.

End ScenarioClaims.

(** ** Further facts: tokens, construction, logs *)

Section MoreFacts.
Import Props CommandHandler App.

Lemma tokens_are_words (s : list N) (ts : list (list N)) :
  tokens_of s ts → Forall word ts.
Proof. induction 1; by constructor. Qed.

Lemma split_nil_blank (s : list N) : split s = [] ↔ blank s.
Proof.
  split.
  - intros Hnil. pose proof (tokens_of_split s) as Ht. rewrite Hnil in Ht.
    by inversion Ht.
  - intros Hs. apply split_tokens. by constructor.
Qed.

(** The single-spaced rendering of tokens is a layout of them. *)
Lemma tokens_of_join (ts : list (list N)) :
  Forall word ts → tokens_of (join (str " ") ts) ts.
Proof.
  induction 1 as [|t ts Ht Hts IH]; [apply tokens_blank; constructor|].
  destruct ts as [|t2 ts].
  - simpl. rewrite <- (app_nil_r t) at 1.
    apply (tokens_word [] t []); [constructor|done|done|].
    apply tokens_blank. constructor.
  - change (join (str " ") (t :: t2 :: ts))
      with ([] ++ t ++ 32%N :: join (str " ") (t2 :: ts)).
    apply tokens_word; [constructor|done|reflexivity|].
    by apply tokens_of_space.
Qed.

Lemma split_join_split (s : list N) :
  split (join (str " ") (split s)) = split s.
Proof.
  apply split_tokens, tokens_of_join.
  apply (tokens_are_words s), tokens_of_split.
Qed.

Lemma filter_not_outbound (l : list event) :
  Forall (λ ev, is_outbound ev = false) l →
  filter (λ ev, is_outbound ev = true) l = [].
Proof.
  induction 1 as [|ev l Hev _ IH]; [done|].
  rewrite filter_cons_False; [done|]. by rewrite Hev.
Qed.

(** What a completed [CommandHandler()] is, field by field. *)
Lemma init_inv_full (w : World) (l : list event) (h : CommandHandler.t) :
  CommandHandler.init w = (l, Return h) →
  genai_configure w (os_getenv w (str "GEMINI_API_KEY")) = None
  ∧ l = [EvConfigure (os_getenv w (str "GEMINI_API_KEY"))]
  ∧ models h
    = <[str "gemini" :=
          ObjGemini {| GeminiModel.api_key := os_getenv w (str "GEMINI_API_KEY");
                       GeminiModel.model := os_getenv w (str "GEMINI_MODEL");
                       GeminiModel.word_limit := 100 |}]>
        (<[str "openai" :=
             ObjOpenai {| OpenaiModel.api_key := os_getenv w (str "OPENAI_API_KEY");
                          OpenaiModel.model :=
                            default (str "gpt-3.5-turbo-instruct")
                                    (os_getenv w (str "OPENAI_MODEL"));
                          OpenaiModel.word_limit := 100 |}]> ∅)
  ∧ commands h = init_commands (models h).
Proof.
  unfold CommandHandler.init, GeminiModel.init, OpenaiModel.init. unfold_M.
  simpl. destruct (genai_configure w _); simpl; [intros [=]|].
  by intros [= <- <-].
Qed.

Lemma init_raises (w : World) (e : exn) :
  genai_configure w (os_getenv w (str "GEMINI_API_KEY")) = Some e →
  CommandHandler.init w
  = ([EvConfigure (os_getenv w (str "GEMINI_API_KEY"));
      EvPrint (str "Failed to configure Gemini API with provided API key: ") e],
     Raise e).
Proof.
  intros He.
  unfold CommandHandler.init, GeminiModel.init, OpenaiModel.init. unfold_M.
  simpl. by rewrite He.
Qed.

Lemma init_returns (w : World) :
  genai_configure w (os_getenv w (str "GEMINI_API_KEY")) = None →
  ∃ h, CommandHandler.init w
       = ([EvConfigure (os_getenv w (str "GEMINI_API_KEY"))], Return h).
Proof.
  intros He.
  unfold CommandHandler.init, GeminiModel.init, OpenaiModel.init. unfold_M.
  simpl. rewrite He. by eexists.
Qed.

Lemma init_slot_gemini (w : World) (l : list event) (h : CommandHandler.t)
    (g : GeminiModel.t) :
  CommandHandler.init w = (l, Return h) →
  models h !! str "gemini" = Some (ObjGemini g) →
  g = {| GeminiModel.api_key := os_getenv w (str "GEMINI_API_KEY");
         GeminiModel.model := os_getenv w (str "GEMINI_MODEL");
         GeminiModel.word_limit := 100 |}.
Proof.
  intros (_ & _ & Hmodels & _)%init_inv_full. rewrite Hmodels.
  rewrite lookup_insert_eq. by intros [= <-].
Qed.

Lemma init_slot_openai (w : World) (l : list event) (h : CommandHandler.t)
    (o : OpenaiModel.t) :
  CommandHandler.init w = (l, Return h) →
  models h !! str "openai" = Some (ObjOpenai o) →
  o = {| OpenaiModel.api_key := os_getenv w (str "OPENAI_API_KEY");
         OpenaiModel.model :=
           default (str "gpt-3.5-turbo-instruct") (os_getenv w (str "OPENAI_MODEL"));
         OpenaiModel.word_limit := 100 |}.
Proof.
  intros (_ & _ & Hmodels & _)%init_inv_full. rewrite Hmodels.
  rewrite lookup_insert_ne by discriminate. rewrite lookup_insert_eq.
  by intros [= <-].
Qed.

(** The dispatch of a built handler on the keyword of a backend. *)
Lemma built_dispatch (w0 : World) (l0 : list event) (h : CommandHandler.t)
    (b : backend) (message : list N) (w : World) :
  CommandHandler.init w0 = (l0, Return h) →
  handle_command h (backend_key b) message w =
    match wrapper b (models h) message w with
    | (l, Return v) => (l, Return v)
    | (l, Raise e) =>
        (l ++ [EvPrint (str "Error handling command '" ++ backend_key b ++ str "': ") e],
         Return (VStr (str "An error occurred while processing your command.")))
    end.
Proof.
  intros (_ & _ & _ & Hcmds)%init_inv_full.
  by rewrite handle_command_run, Hcmds, init_commands_lookup.
Qed.

End MoreFacts.

Section MoreEndpointFacts.
Import Props CommandHandler App.
Variable lower : list N → list N.

(** [bot] on a form whose message, the empty one when [Body] is missing,
    has a first token. *)
Lemma bot_run_default (h : CommandHandler.t) (values : gmap (list N) (list N))
    (w : World) (t : list N) (rest : list (list N)) :
  split (default (str "") (values !! str "Body")) = t :: rest →
  bot lower h values w =
    match handle_command h (lower t) (join (str " ") rest) w with
    | (l, Return v) => (l, Return (ResponseMessageBody v))
    | (l, Raise e) =>
        (l ++ [EvPrint (str "An error occurred while processing the request: ") e],
         Return (MessageText (str "Sorry, an error occurred while processing your request.")))
    end.
Proof.
  intros Hsplit. unfold bot. rewrite Hsplit.
  unfold list_getitem_0. unfold_M. simpl.
  destruct (handle_command h _ _ w) as [l [v|e]]; simpl; [|done].
  by rewrite app_nil_r.
Qed.

End MoreEndpointFacts.

(** ** Further properties of the endpoint *)

Section EndpointProperties.
Import Props CommandHandler App.
Variable lower : list N → list N.

(** X1: for every handler, form and world, [bot] returns a reply and never
    raises; the reply is the bare apology message exactly when the message
    (the empty one when [Body] is missing) has no character other than
    whitespace. *)
Theorem X1_bot_always_replies (h : CommandHandler.t)
    (values : gmap (list N) (list N)) (w : World) :
  (∃ l reply, bot lower h values w = (l, Return reply))
  ∧ ((∃ l text, bot lower h values w = (l, Return (MessageText text)))
     ↔ blank (default (str "") (values !! str "Body"))).
Proof.
  destruct (split (default (str "") (values !! str "Body"))) as [|t rest] eqn:Hsplit.
  - rewrite (bot_no_token lower h values w Hsplit).
    split; [by eexists _, _|]. split; [|by eexists _, _].
    intros _. by apply split_nil_blank.
  - rewrite (bot_run_default lower h values w t rest Hsplit).
    rewrite handle_command_run.
    destruct (default handle_default _ _ w) as [l [v|e]];
      (split; [by eexists _, _|]);
      (split; [by intros (? & ? & [=])|]);
      intros Hblank%split_nil_blank; congruence.
Qed.

(** X2: re-sending the tokens of a message joined by single spaces gives the
    same run of [bot] as the message itself, and that rendering splits into
    the same tokens. *)
Theorem X2_bot_single_spaced_same (h : CommandHandler.t)
    (values : gmap (list N) (list N)) (w : World) :
  split (join (str " ") (split (default (str "") (values !! str "Body"))))
  = split (default (str "") (values !! str "Body"))
  ∧ bot lower h
      (<[str "Body" := join (str " ") (split (default (str "") (values !! str "Body")))]>
         values) w
    = bot lower h values w.
Proof.
  split; [apply split_join_split|].
  pose proof (split_join_split (default (str "") (values !! str "Body"))) as Hcanon.
  destruct (split (default (str "") (values !! str "Body"))) as [|t rest] eqn:Hsplit.
  - rewrite (bot_no_token lower h values w Hsplit).
    apply bot_no_token. by rewrite lookup_insert_eq.
  - rewrite (bot_run_default lower h values w t rest Hsplit).
    apply bot_run_default. rewrite lookup_insert_eq. exact Hcanon.
Qed.

(** X3: with a handler [CommandHandler()] built, one request makes at most
    one outbound call, whatever the form and the world. *)
Theorem X3_at_most_one_outbound_call (w0 : World) (l0 : list event)
    (h : CommandHandler.t) (values : gmap (list N) (list N)) (w : World) :
  CommandHandler.init w0 = (l0, Return h) →
  length (outbound (bot lower h values w)) ≤ 1.
Proof.
  intros Hinit.
  pose proof Hinit as (_ & _ & Hmodels & Hcmds)%init_inv_full.
  destruct (split (default (str "") (values !! str "Body"))) as [|t rest] eqn:Hsplit.
  { rewrite (bot_no_token lower h values w Hsplit). unfold outbound. simpl. lia. }
  rewrite (bot_run_default lower h values w t rest Hsplit).
  destruct (decide (lower t = str "gemini")) as [Hg|Hg].
  { rewrite Hg, (built_dispatch w0 l0 h Gemini _ w Hinit), (wrapper_run Gemini).
    simpl backend_key. rewrite Hmodels, lookup_insert_eq. simpl.
    unfold generate_response, GeminiModel.interface.
    rewrite gemini_generate_run. cbv zeta.
    destruct (genai_GenerativeModel w _); [unfold outbound; simpl; lia|].
    destruct (genai_generate_content w _ _) as [e|response];
      [unfold outbound; simpl; lia|].
    destruct (response_text response); unfold outbound; simpl; lia. }
  destruct (decide (lower t = str "openai")) as [Ho|Ho].
  { rewrite Ho, (built_dispatch w0 l0 h OpenAI _ w Hinit), (wrapper_run OpenAI).
    simpl backend_key. rewrite Hmodels.
    rewrite lookup_insert_ne by discriminate. rewrite lookup_insert_eq. simpl.
    unfold generate_response, OpenaiModel.interface.
    match goal with
    | |- context [OpenaiModel.generate_response ?o ?q w] =>
        destruct (openai_generate_returns o q w) as (l & v & -> & Hl)
    end.
    unfold outbound. simpl fst.
    rewrite filter_cons_True by done.
    rewrite filter_not_outbound by done. simpl. lia. }
  rewrite handle_command_run, Hcmds, init_commands_lookup_other by done.
  unfold outbound. simpl. lia.
Qed.

(** X4: with a handler [CommandHandler()] built, a message that is only the
    keyword of a backend (in any case and layout) is dispatched with the
    empty question.  OpenAI is always posted the empty prompt; Gemini is
    asked the bare instruction whenever its client can be built, and is not
    called at all when building the client raises. *)
Theorem X4_bare_keyword_empty_question (w0 : World) (l0 : list event)
    (h : CommandHandler.t) (g : GeminiModel.t) (o : OpenaiModel.t) (b : backend)
    (values : gmap (list N) (list N)) (w : World) (body t : list N) :
  CommandHandler.init w0 = (l0, Return h) →
  models h !! str "gemini" = Some (ObjGemini g) →
  models h !! str "openai" = Some (ObjOpenai o) →
  values !! str "Body" = Some body →
  tokens_of body [t] →
  lower t = backend_key b →
  outbound (bot lower h values w)
  = match b with
    | Gemini =>
        match genai_GenerativeModel w (GeminiModel.model g) with
        | None =>
            [EvGenerate (GeminiModel.model g)
               (str "Answer this question in 100 words: ")]
        | Some _ => []
        end
    | OpenAI =>
        [EvPost {| url := url (OpenaiModel.request o (str ""));
                   prompt := str "";
                   max_tokens := 500;
                   authorization := authorization (OpenaiModel.request o (str "")) |}]
    end.
Proof.
  intros Hinit Hg Ho Hbody Ht%split_tokens Hkey.
  pose proof (init_slot_gemini w0 l0 h g Hinit Hg) as Hgi.
  pose proof (init_slot_openai w0 l0 h o Hinit Ho) as Hoi.
  rewrite (bot_run lower h values w body t [] Hbody Ht), Hkey.
  rewrite (built_dispatch w0 l0 h b _ w Hinit), (wrapper_run b). cbv zeta.
  destruct b; simpl backend_key.
  - rewrite Hg. simpl.
    unfold generate_response, GeminiModel.interface.
    rewrite gemini_generate_run. cbv zeta.
    rewrite build_prompt_100 by (by rewrite Hgi).
    destruct (genai_GenerativeModel w _); [reflexivity|].
    destruct (genai_generate_content w _ _) as [e|response]; [reflexivity|].
    by destruct (response_text response).
  - rewrite Ho. simpl.
    unfold generate_response, OpenaiModel.interface.
    destruct (openai_generate_returns o [] w) as (l & v & -> & Hl).
    unfold outbound. simpl fst.
    rewrite filter_cons_True by done.
    rewrite filter_not_outbound by done.
    by rewrite Hoi.
Qed.

End EndpointProperties.

(** ** Further properties, end to end *)

Section EndToEndProperties.
Import Props CommandHandler App.
Variable lower : list N → list N.

(** The run of [bot] on a "gemini" message, by what the three steps of
    the backend meet. *)
Lemma bot_gemini_run (w0 : World) (l0 : list event) (h : CommandHandler.t)
    (g : GeminiModel.t) (values : gmap (list N) (list N)) (w : World)
    (body t : list N) (rest : list (list N)) :
  CommandHandler.init w0 = (l0, Return h) →
  models h !! str "gemini" = Some (ObjGemini g) →
  values !! str "Body" = Some body →
  tokens_of body (t :: rest) →
  lower t = str "gemini" →
  bot lower h values w =
    let p := str "Answer this question in 100 words: " ++ join (str " ") rest in
    let failed e :=
      ([EvPrint (str "Error generating response from Gemini model: ") e;
        EvPrint (str "Error generating response with Gemini model: ") e],
       Return (ResponseMessageBody
                 (VStr (str "An error occurred while generating a response.")))) in
    match genai_GenerativeModel w (GeminiModel.model g) with
    | Some e => failed e
    | None =>
        match genai_generate_content w (GeminiModel.model g) p with
        | inl e => (EvGenerate (GeminiModel.model g) p :: (failed e).1, (failed e).2)
        | inr response =>
            match response_text response with
            | inl e => (EvGenerate (GeminiModel.model g) p :: (failed e).1, (failed e).2)
            | inr text =>
                ([EvGenerate (GeminiModel.model g) p],
                 Return (ResponseMessageBody (VStr text)))
            end
        end
    end.
Proof.
  intros Hinit Hg Hbody Ht%split_tokens Hkey.
  pose proof (init_slot_gemini w0 l0 h g Hinit Hg) as Hgi.
  rewrite (bot_run lower h values w body t rest Hbody Ht), Hkey.
  rewrite (built_dispatch w0 l0 h Gemini _ w Hinit), (wrapper_run Gemini).
  simpl backend_key. rewrite Hg. simpl.
  unfold generate_response, GeminiModel.interface.
  rewrite gemini_generate_run. cbv zeta.
  rewrite build_prompt_100 by (by rewrite Hgi).
  destruct (genai_GenerativeModel w _); [reflexivity|].
  destruct (genai_generate_content w _ _) as [e|response]; [reflexivity|].
  by destruct (response_text response).
Qed.

(** X5: with a handler [CommandHandler()] built, a message whose first
    token lower-cases to "gemini" makes no generative call when the client
    cannot be built and exactly one otherwise, for the 100-word instruction
    followed by the other tokens joined by single spaces; and when the
    client is built, the call succeeds and its text can be read, that call
    is all that is logged and the reply body is the generated text as it
    is. *)
Theorem X5_gemini_end_to_end (w0 : World) (l0 : list event) (h : CommandHandler.t)
    (g : GeminiModel.t) (values : gmap (list N) (list N)) (w : World)
    (body t : list N) (rest : list (list N)) (text : list N) :
  CommandHandler.init w0 = (l0, Return h) →
  models h !! str "gemini" = Some (ObjGemini g) →
  values !! str "Body" = Some body →
  tokens_of body (t :: rest) →
  lower t = str "gemini" →
  genai_GenerativeModel w (GeminiModel.model g) = None →
  genai_generate_content w (GeminiModel.model g)
    (str "Answer this question in 100 words: " ++ join (str " ") rest)
  = inr {| response_text := inr text |} →
  (∀ w', outbound (bot lower h values w')
         = match genai_GenerativeModel w' (GeminiModel.model g) with
           | None =>
               [EvGenerate (GeminiModel.model g)
                  (str "Answer this question in 100 words: " ++ join (str " ") rest)]
           | Some _ => []
           end)
  ∧ bot lower h values w
    = ([EvGenerate (GeminiModel.model g)
          (str "Answer this question in 100 words: " ++ join (str " ") rest)],
       Return (ResponseMessageBody (VStr text))).
Proof.
  intros Hinit Hg Hbody Ht Hkey Hnew Hgen. split.
  - intros w'.
    rewrite (bot_gemini_run w0 l0 h g values w' body t rest Hinit Hg Hbody Ht Hkey).
    cbv zeta.
    destruct (genai_GenerativeModel w' _); [reflexivity|].
    destruct (genai_generate_content w' _ _) as [e|response]; [reflexivity|].
    by destruct (response_text response).
  - rewrite (bot_gemini_run w0 l0 h g values w body t rest Hinit Hg Hbody Ht Hkey).
    cbv zeta. by rewrite Hnew, Hgen.
Qed.

(** X6: in the same setting, when building the client raises, or the
    generative call raises, or reading the text of its answer raises, the
    backend prints and re-raises, the wrapper prints and turns the failure
    into text, and the reply body is "An error occurred while generating a
    response.".  The generative call is logged before the two lines only
    when the client had been built. *)
Theorem X6_gemini_failure_end_to_end (w0 : World) (l0 : list event)
    (h : CommandHandler.t) (g : GeminiModel.t) (values : gmap (list N) (list N))
    (w : World) (body t : list N) (rest : list (list N)) (e : exn) :
  CommandHandler.init w0 = (l0, Return h) →
  models h !! str "gemini" = Some (ObjGemini g) →
  values !! str "Body" = Some body →
  tokens_of body (t :: rest) →
  lower t = str "gemini" →
  genai_GenerativeModel w (GeminiModel.model g) = Some e
  ∨ genai_GenerativeModel w (GeminiModel.model g) = None
    ∧ (genai_generate_content w (GeminiModel.model g)
         (str "Answer this question in 100 words: " ++ join (str " ") rest) = inl e
       ∨ genai_generate_content w (GeminiModel.model g)
           (str "Answer this question in 100 words: " ++ join (str " ") rest)
         = inr {| response_text := inl e |}) →
  bot lower h values w
  = (match genai_GenerativeModel w (GeminiModel.model g) with
     | Some _ => []
     | None =>
         [EvGenerate (GeminiModel.model g)
            (str "Answer this question in 100 words: " ++ join (str " ") rest)]
     end
     ++ [EvPrint (str "Error generating response from Gemini model: ") e;
         EvPrint (str "Error generating response with Gemini model: ") e],
     Return (ResponseMessageBody
               (VStr (str "An error occurred while generating a response.")))).
Proof.
  intros Hinit Hg Hbody Ht Hkey Hfail.
  rewrite (bot_gemini_run w0 l0 h g values w body t rest Hinit Hg Hbody Ht Hkey).
  cbv zeta.
  destruct Hfail as [-> | [-> [-> | ->]]]; reflexivity.
Qed.


End EndToEndProperties.

(** ** Further properties of construction, backends and wrappers *)

Section ComponentProperties.
Import Props CommandHandler App.

(** X8: [CommandHandler()] raises exactly when [genai.configure] raises on
    the Gemini key of the environment, and then with that same exception;
    otherwise it returns a handler.  Either way it makes no outbound
    call. *)
Theorem X8_construction_follows_configure (w : World) :
  (∀ e, genai_configure w (os_getenv w (str "GEMINI_API_KEY")) = Some e
        ↔ ∃ l, CommandHandler.init w = (l, Raise e))
  ∧ (genai_configure w (os_getenv w (str "GEMINI_API_KEY")) = None
     ↔ ∃ l h, CommandHandler.init w = (l, Return h))
  ∧ outbound (CommandHandler.init w) = [].
Proof.
  destruct (genai_configure w (os_getenv w (str "GEMINI_API_KEY"))) as [e0|] eqn:Hc.
  - rewrite (init_raises w e0 Hc). split; [|split; [|reflexivity]].
    + intros e. split; [intros [= <-]; by eexists|by intros (l & [= _ <-])].
    + split; [done|by intros (? & ? & [=])].
  - destruct (init_returns w Hc) as (h & ->). split; [|split; [|reflexivity]].
    + intros e. split; [done|by intros (? & [=])].
    + split; [by eexists _, _|done].
Qed.

(** X9: when neither OPENAI_API_KEY nor OPENAI_MODEL is set, construction
    still completes, and every request of the OpenAI backend goes to the
    engine "gpt-3.5-turbo-instruct" with the header "Bearer None". *)
Theorem X9_openai_unset_environment (w0 : World) (l0 : list event)
    (h : CommandHandler.t) (o : OpenaiModel.t) (question : list N) :
  CommandHandler.init w0 = (l0, Return h) →
  models h !! str "openai" = Some (ObjOpenai o) →
  os_getenv w0 (str "OPENAI_API_KEY") = None →
  os_getenv w0 (str "OPENAI_MODEL") = None →
  authorization (OpenaiModel.request o question) = str "Bearer None"
  ∧ url (OpenaiModel.request o question)
    = str "https://api.openai.com/v1/engines/gpt-3.5-turbo-instruct/completions".
Proof.
  intros Hinit Ho Hkey Hmodel.
  rewrite (init_slot_openai w0 l0 h o Hinit Ho).
  unfold OpenaiModel.request. simpl. by rewrite Hkey, Hmodel.
Qed.

(** X10: the OpenAI backend returns a string only in one way: the post
    answered with a good status and a JSON object whose "choices" is a list
    headed by an object whose "text" is a string; the result is that text
    stripped, so it never starts or ends with whitespace, and nothing but
    the post is logged. *)
Theorem X10_openai_string_only_from_completion (o : OpenaiModel.t)
    (question : list N) (w : World) (l : list event) (s : list N) :
  OpenaiModel.generate_response o question w = (l, Return (VStr s)) →
  l = [EvPost (OpenaiModel.request o question)]
  ∧ (∃ status fields choice items text,
       requests_post w (OpenaiModel.request o question)
         = inr {| status_code := status; body := Some (JDict fields) |}
       ∧ ¬ (400 ≤ status < 600)%Z
       ∧ fields !! str "choices" = Some (JList (JDict choice :: items))
       ∧ choice !! str "text" = Some (JStr text)
       ∧ s = strip text)
  ∧ (∀ c, head s = Some c → isspace c = false)
  ∧ (∀ c, last s = Some c → isspace c = false).
Proof.
  intros Hrun.
  assert (l = [EvPost (OpenaiModel.request o question)]
          ∧ ∃ status fields choice items text,
              requests_post w (OpenaiModel.request o question)
                = inr {| status_code := status; body := Some (JDict fields) |}
              ∧ ¬ (400 ≤ status < 600)%Z
              ∧ fields !! str "choices" = Some (JList (JDict choice :: items))
              ∧ choice !! str "text" = Some (JStr text)
              ∧ s = strip text) as (Hl & Hshape).
  { revert Hrun. unfold OpenaiModel.generate_response.
    unfold raise_for_status, response_json, getitem_str, getitem_0, strip_method.
    unfold_M.
    destruct (requests_post w _) as [e|[status data]]; simpl.
    { destruct (is_HTTPError e); simpl; intros [=]. }
    destruct (_ && _) eqn:Hbad; simpl; [intros [=]|].
    destruct data as [[| | | | |fields]|]; simpl; try (intros [=]; fail).
    destruct (fields !! str "choices") as [[| | |s0|items|]|] eqn:Hchoices;
      simpl; try (intros [=]; fail).
    { destruct s0; simpl; intros [=]. }
    destruct items as [|[| | | | |choice] items]; simpl; try (intros [=]; fail).
    destruct (choice !! str "text") as [[| | |text| |]|] eqn:Htext;
      simpl; try (intros [=]; fail).
    intros [= <- <-]. split; [done|].
    exists status, fields, choice, items, text.
    repeat split; [lia|done..]. }
  split; [done|]. split; [done|].
  destruct Hshape as (_ & _ & _ & _ & text & _ & _ & _ & _ & ->).
  destruct (strip_spec text) as (? & ? & _ & _ & _ & Hhead & Hlast). done.
Qed.

(** X11: when the answer has a good status but its JSON object has no
    "choices" key, or an empty "choices" list, the lookup fails inside the
    backend ([KeyError], [IndexError]); the backend prints it and returns
    [None]. *)
Theorem X11_openai_no_choice_is_none (o : OpenaiModel.t) (question : list N)
    (w : World) (status : Z) (fields : gmap (list N) json) :
  requests_post w (OpenaiModel.request o question)
    = inr {| status_code := status; body := Some (JDict fields) |} →
  ¬ (400 ≤ status < 600)%Z →
  fields !! str "choices" = None ∨ fields !! str "choices" = Some (JList []) →
  OpenaiModel.generate_response o question w
  = ([EvPost (OpenaiModel.request o question);
      EvPrint (str "An error occurred: ")
        (match fields !! str "choices" with None => KeyError | Some _ => IndexError end)],
     Return VNone).
Proof.
  intros Hpost Hstatus Hchoices.
  unfold OpenaiModel.generate_response.
  unfold raise_for_status, response_json, getitem_str, getitem_0, strip_method.
  unfold_M. rewrite Hpost. simpl.
  destruct (_ && _) eqn:Hbad; [exfalso; apply Hstatus; lia|].
  simpl. by destruct Hchoices as [-> | ->].
Qed.

(** X12: with a handler [CommandHandler()] built, no resolved handler ever
    raises: [handle_command] returns what the handler returned, and its own
    "An error occurred while processing your command." branch does not
    run. *)
Theorem X12_built_handler_never_falls_back (w0 : World) (l0 : list event)
    (h : CommandHandler.t) (command message : list N) (w : World) :
  CommandHandler.init w0 = (l0, Return h) →
  ∃ l v,
    default handle_default (commands h !! command) message w = (l, Return v)
    ∧ handle_command h command message w = (l, Return v).
Proof.
  intros (_ & _ & _ & Hcmds)%init_inv_full.
  rewrite handle_command_run.
  assert (∃ l v, default handle_default (commands h !! command) message w
                 = (l, Return v)) as (l & v & Hrun).
  { rewrite Hcmds.
    destruct (decide (command = str "gemini")) as [->|Hg].
    { rewrite (init_commands_lookup _ Gemini). simpl default.
      rewrite (wrapper_run Gemini). cbv zeta.
      destruct (truthy _); [|by eexists _, _].
      destruct (call_generate_response _ message w) as [l [v|e]]; by eexists _, _. }
    destruct (decide (command = str "openai")) as [->|Ho].
    { rewrite (init_commands_lookup _ OpenAI). simpl default.
      rewrite (wrapper_run OpenAI). cbv zeta.
      destruct (truthy _); [|by eexists _, _].
      destruct (call_generate_response _ message w) as [l [v|e]]; by eexists _, _. }
    rewrite init_commands_lookup_other by done. by eexists _, _. }
  exists l, v. by rewrite Hrun.
Qed.

(** X13: a backend that only inherits [ModelInterface.generate_response]
    raises [NotImplementedError] on every question; the wrapper of the slot
    it sits in catches it and answers "An error occurred while generating a
    response.", without any outbound call. *)
Theorem X13_interface_instance_is_error_text (b : backend)
    (self_models : gmap (list N) pyobj) (message : list N) (w : World) :
  self_models !! backend_key b = Some ObjInterface →
  wrapper b self_models message w
  = ([EvPrint (wrapper_log_prefix b) NotImplementedError],
     Return (VStr (str "An error occurred while generating a response."))).
Proof.
  intros Hslot. rewrite wrapper_run. cbv zeta. by rewrite Hslot.
Qed.

(** X14: with a handler [CommandHandler()] built, the keyword "gemini"
    always yields a string, in every world: the generated text, or the
    fixed text of the wrapper when the call failed; never [None]. *)
Theorem X14_gemini_dispatch_is_string (w0 : World) (l0 : list event)
    (h : CommandHandler.t) (message : list N) (w : World) :
  CommandHandler.init w0 = (l0, Return h) →
  ∃ l s, handle_command h (str "gemini") message w = (l, Return (VStr s)).
Proof.
  intros Hinit.
  pose proof Hinit as (_ & _ & Hmodels & _)%init_inv_full.
  pose proof (built_dispatch w0 l0 h Gemini message w Hinit) as Hrun.
  rewrite (wrapper_run Gemini) in Hrun.
  simpl backend_key in Hrun. rewrite Hmodels, lookup_insert_eq in Hrun.
  simpl in Hrun. unfold generate_response, GeminiModel.interface in Hrun.
  rewrite gemini_generate_run in Hrun. cbv zeta in Hrun.
  destruct (genai_GenerativeModel w _); [by eexists _, _|].
  destruct (genai_generate_content w _ _) as [e|response]; [by eexists _, _|].
  destruct (response_text response); by eexists _, _.
Qed.

End ComponentProperties.

(** ** The further properties on the scenarios *)

Section MoreScenarioChecks.
Import Props CommandHandler App Scenario EdgeScenario.

Lemma bare_handler_built :
  CommandHandler.init world_bare = ([EvConfigure None], Return bare_handler).
Proof. reflexivity. Qed.

Lemma slot_gemini_built :
  models command_handler !! str "gemini" = Some (ObjGemini gemini_instance).
Proof. apply lookup_insert_eq. Qed.

Lemma slot_openai_built :
  models command_handler !! str "openai" = Some (ObjOpenai openai_instance).
Proof.
  unfold command_handler, the_models. simpl models.
  rewrite lookup_insert_ne by discriminate. apply lookup_insert_eq.
Qed.

Lemma X3_witness :
  CommandHandler.init world_up
  = ([EvConfigure (Some (str "g-key"))], Return command_handler)
  ∧ length (outbound (bot ascii_lower command_handler (form "openai hello") world_down)) ≤ 1.
Proof.
  pose proof scenario_handler_built as H1.
  split; [assumption|].
  exact (X3_at_most_one_outbound_call ascii_lower world_up _ command_handler
           (form "openai hello") world_down H1).
Defined.

Lemma X4_witness :
  CommandHandler.init world_up
  = ([EvConfigure (Some (str "g-key"))], Return command_handler)
  ∧ models command_handler !! str "gemini" = Some (ObjGemini gemini_instance)
  ∧ models command_handler !! str "openai" = Some (ObjOpenai openai_instance)
  ∧ form "  GEMINI " !! str "Body" = Some (str "  GEMINI ")
  ∧ tokens_of (str "  GEMINI ") [str "GEMINI"]
  ∧ ascii_lower (str "GEMINI") = backend_key Gemini
  ∧ outbound (bot ascii_lower command_handler (form "  GEMINI ") world_up)
    = [EvGenerate (Some (str "gemini-pro")) (str "Answer this question in 100 words: ")].
Proof.
  pose proof scenario_handler_built as H1.
  pose proof slot_gemini_built as H2.
  pose proof slot_openai_built as H3.
  pose proof (lookup_singleton_eq (M := gmap (list N))
                (str "Body") (str "  GEMINI ")) as H4.
  pose proof (tokens_of_split (str "  GEMINI ")) as H5.
  assert (ascii_lower (str "GEMINI") = backend_key Gemini) as H6 by reflexivity.
  repeat (split; [assumption|]).
  exact (X4_bare_keyword_empty_question ascii_lower world_up _ command_handler
           gemini_instance openai_instance Gemini _ world_up _ (str "GEMINI")
           H1 H2 H3 H4 H5 H6).
Defined.

Lemma X5_witness :
  CommandHandler.init world_up
  = ([EvConfigure (Some (str "g-key"))], Return command_handler)
  ∧ models command_handler !! str "gemini" = Some (ObjGemini gemini_instance)
  ∧ form "gemini what is rust" !! str "Body" = Some (str "gemini what is rust")
  ∧ tokens_of (str "gemini what is rust")
      [str "gemini"; str "what"; str "is"; str "rust"]
  ∧ ascii_lower (str "gemini") = str "gemini"
  ∧ genai_GenerativeModel world_up (GeminiModel.model gemini_instance) = None
  ∧ genai_generate_content world_up (GeminiModel.model gemini_instance)
      (str "Answer this question in 100 words: "
       ++ join (str " ") [str "what"; str "is"; str "rust"])
    = inr {| response_text := inr (str " Rust is a language. ") |}
  ∧ bot ascii_lower command_handler (form "gemini what is rust") world_up
    = ([EvGenerate (Some (str "gemini-pro"))
          (str "Answer this question in 100 words: what is rust")],
       Return (ResponseMessageBody (VStr (str " Rust is a language. ")))).
Proof.
  pose proof scenario_handler_built as H1.
  pose proof slot_gemini_built as H2.
  pose proof (lookup_singleton_eq (M := gmap (list N))
                (str "Body") (str "gemini what is rust")) as H3.
  pose proof (tokens_of_split (str "gemini what is rust")) as H4.
  assert (ascii_lower (str "gemini") = str "gemini") as H5 by reflexivity.
  assert (genai_GenerativeModel world_up (GeminiModel.model gemini_instance) = None)
    as H6 by reflexivity.
  assert (genai_generate_content world_up (GeminiModel.model gemini_instance)
            (str "Answer this question in 100 words: "
             ++ join (str " ") [str "what"; str "is"; str "rust"])
          = inr {| response_text := inr (str " Rust is a language. ") |}) as H7
    by reflexivity.
  repeat (split; [assumption|]).
  exact (proj2 (X5_gemini_end_to_end ascii_lower world_up _ command_handler
                  gemini_instance _ world_up _ (str "gemini")
                  [str "what"; str "is"; str "rust"] (str " Rust is a language. ")
                  H1 H2 H3 H4 H5 H6 H7)).
Defined.

Lemma X6_witness :
  (CommandHandler.init world_bare = ([EvConfigure None], Return bare_handler)
   ∧ models bare_handler !! str "gemini" = Some (ObjGemini bare_gemini)
   ∧ form "Gemini what is rust" !! str "Body" = Some (str "Gemini what is rust")
   ∧ tokens_of (str "Gemini what is rust")
       [str "Gemini"; str "what"; str "is"; str "rust"]
   ∧ ascii_lower (str "Gemini") = str "gemini"
   ∧ genai_GenerativeModel world_bare (GeminiModel.model bare_gemini) = Some TypeError
   ∧ bot ascii_lower bare_handler (form "Gemini what is rust") world_bare
     = ([EvPrint (str "Error generating response from Gemini model: ") TypeError;
         EvPrint (str "Error generating response with Gemini model: ") TypeError],
        Return (ResponseMessageBody
                  (VStr (str "An error occurred while generating a response.")))))
  ∧ (CommandHandler.init world_up
     = ([EvConfigure (Some (str "g-key"))], Return command_handler)
     ∧ models command_handler !! str "gemini" = Some (ObjGemini gemini_instance)
     ∧ genai_generate_content world_blocked (GeminiModel.model gemini_instance)
         (str "Answer this question in 100 words: "
          ++ join (str " ") [str "what"; str "is"; str "rust"])
       = inr {| response_text := inl ValueError |}
     ∧ bot ascii_lower command_handler (form "Gemini what is rust") world_blocked
       = ([EvGenerate (Some (str "gemini-pro"))
             (str "Answer this question in 100 words: what is rust");
           EvPrint (str "Error generating response from Gemini model: ") ValueError;
           EvPrint (str "Error generating response with Gemini model: ") ValueError],
          Return (ResponseMessageBody
                    (VStr (str "An error occurred while generating a response."))))).
Proof.
  pose proof bare_handler_built as B1.
  assert (models bare_handler !! str "gemini" = Some (ObjGemini bare_gemini)) as B2.
  { apply lookup_insert_eq. }
  pose proof (lookup_singleton_eq (M := gmap (list N))
                (str "Body") (str "Gemini what is rust")) as H3.
  pose proof (tokens_of_split (str "Gemini what is rust")) as H4.
  assert (ascii_lower (str "Gemini") = str "gemini") as H5 by reflexivity.
  assert (genai_GenerativeModel world_bare (GeminiModel.model bare_gemini)
          = Some TypeError) as B6 by reflexivity.
  pose proof scenario_handler_built as H1.
  pose proof slot_gemini_built as H2.
  assert (genai_generate_content world_blocked (GeminiModel.model gemini_instance)
            (str "Answer this question in 100 words: "
             ++ join (str " ") [str "what"; str "is"; str "rust"])
          = inr {| response_text := inl ValueError |}) as H7 by reflexivity.
  split.
  - repeat (split; [assumption|]).
    exact (X6_gemini_failure_end_to_end ascii_lower world_bare _ bare_handler
             bare_gemini _ world_bare _ (str "Gemini")
             [str "what"; str "is"; str "rust"] TypeError
             B1 B2 H3 H4 H5 (or_introl B6)).
  - repeat (split; [assumption|]).
    exact (X6_gemini_failure_end_to_end ascii_lower world_up _ command_handler
             gemini_instance _ world_blocked _ (str "Gemini")
             [str "what"; str "is"; str "rust"] ValueError
             H1 H2 H3 H4 H5 (or_intror (conj eq_refl (or_intror H7)))).
Defined.


Lemma X8_witness :
  ∃ l, CommandHandler.init world_unconfigured
       = (l, Raise (LibraryError (str "DefaultCredentialsError"))).
Proof.
  destruct (X8_construction_follows_configure world_unconfigured) as (Hraise & _).
  exact (proj1 (Hraise (LibraryError (str "DefaultCredentialsError"))) eq_refl).
Defined.

Lemma X9_witness :
  CommandHandler.init world_bare = ([EvConfigure None], Return bare_handler)
  ∧ models bare_handler !! str "openai" = Some (ObjOpenai bare_openai)
  ∧ os_getenv world_bare (str "OPENAI_API_KEY") = None
  ∧ os_getenv world_bare (str "OPENAI_MODEL") = None
  ∧ authorization (OpenaiModel.request bare_openai (str "hello")) = str "Bearer None".
Proof.
  pose proof bare_handler_built as H1.
  assert (models bare_handler !! str "openai" = Some (ObjOpenai bare_openai)) as H2.
  { unfold bare_handler, bare_models. simpl models.
    rewrite lookup_insert_ne by discriminate. apply lookup_insert_eq. }
  assert (os_getenv world_bare (str "OPENAI_API_KEY") = None) as H3 by reflexivity.
  assert (os_getenv world_bare (str "OPENAI_MODEL") = None) as H4 by reflexivity.
  repeat (split; [assumption|]).
  exact (proj1 (X9_openai_unset_environment world_bare _ bare_handler bare_openai
                  (str "hello") H1 H2 H3 H4)).
Defined.

Lemma X10_witness :
  OpenaiModel.generate_response openai_instance (str "hello") world_up
  = ([EvPost (OpenaiModel.request openai_instance (str "hello"))],
     Return (VStr (str "Hi there!")))
  ∧ (∀ c, head (str "Hi there!") = Some c → isspace c = false)
  ∧ (∀ c, last (str "Hi there!") = Some c → isspace c = false).
Proof.
  assert (OpenaiModel.generate_response openai_instance (str "hello") world_up
          = ([EvPost (OpenaiModel.request openai_instance (str "hello"))],
             Return (VStr (str "Hi there!")))) as H1 by reflexivity.
  split; [assumption|].
  exact (proj2 (proj2 (X10_openai_string_only_from_completion openai_instance
                         (str "hello") world_up _ _ H1))).
Defined.

Lemma X11_witness :
  requests_post world_no_choice (OpenaiModel.request openai_instance (str "hello"))
  = inr {| status_code := 200;
           body := Some (JDict {[ str "choices" := JList [] ]}) |}
  ∧ ¬ (400 ≤ 200 < 600)%Z
  ∧ (({[ str "choices" := JList [] ]} : gmap (list N) json) !! str "choices" = None
     ∨ ({[ str "choices" := JList [] ]} : gmap (list N) json) !! str "choices"
       = Some (JList []))
  ∧ (OpenaiModel.generate_response openai_instance (str "hello") world_no_choice).2
    = Return VNone.
Proof.
  assert (requests_post world_no_choice
            (OpenaiModel.request openai_instance (str "hello"))
          = inr {| status_code := 200;
                   body := Some (JDict {[ str "choices" := JList [] ]}) |}) as H1
    by reflexivity.
  assert (¬ (400 ≤ 200 < 600)%Z) as H2 by lia.
  assert (({[ str "choices" := JList [] ]} : gmap (list N) json) !! str "choices" = None
          ∨ ({[ str "choices" := JList [] ]} : gmap (list N) json) !! str "choices"
            = Some (JList [])) as H3.
  { right. apply lookup_singleton_eq. }
  repeat (split; [assumption|]).
  by rewrite (X11_openai_no_choice_is_none openai_instance (str "hello")
                world_no_choice 200 _ H1 H2 H3).
Defined.

Lemma X12_witness :
  CommandHandler.init world_up
  = ([EvConfigure (Some (str "g-key"))], Return command_handler)
  ∧ ∃ l v,
      default handle_default (commands command_handler !! str "openai")
        (str "hello") world_down = (l, Return v)
      ∧ handle_command command_handler (str "openai") (str "hello") world_down
        = (l, Return v).
Proof.
  pose proof scenario_handler_built as H1.
  split; [assumption|].
  exact (X12_built_handler_never_falls_back world_up _ command_handler
           (str "openai") (str "hello") world_down H1).
Defined.

Lemma X13_witness :
  interface_models !! backend_key Gemini = Some ObjInterface
  ∧ handle_gemini interface_models (str "what is rust") world_up
    = ([EvPrint (str "Error generating response with Gemini model: ") NotImplementedError],
       Return (VStr (str "An error occurred while generating a response."))).
Proof.
  assert (interface_models !! backend_key Gemini = Some ObjInterface) as H1.
  { apply lookup_singleton_eq. }
  split; [assumption|].
  exact (X13_interface_instance_is_error_text Gemini interface_models
           (str "what is rust") world_up H1).
Defined.

Lemma X14_witness :
  CommandHandler.init world_up
  = ([EvConfigure (Some (str "g-key"))], Return command_handler)
  ∧ ∃ l s,
      handle_command command_handler (str "gemini") (str "what is rust") world_down
      = (l, Return (VStr s)).
Proof.
  pose proof scenario_handler_built as H1.
  split; [assumption|].
  exact (X14_gemini_dispatch_is_string world_up _ command_handler
           (str "what is rust") world_down H1).
Defined.

End MoreScenarioChecks.
